(** * SLA-NG probed: wrapped network functions (probed/net.c)

    A shallow embedding of [recv_w_ts], [send_w_ts] and [bind_or_die].
    The three functions are sequences of system calls with a little
    control flow in between, so they are written in a small monad whose
    computations read the history of the process (every call made so
    far, with its result), append the calls they make, and either
    return a value or terminate the process through [exit].

    The operating system is not part of the program.  Its answers are
    taken from an environment [Env], a record of oracles that map the
    history and the arguments of a call to its result: any
    deterministic kernel, network and clock is an instance.  The two
    helpers [tstamp_extract] and [tstamp_fetch_tx] are defined in
    tstamp.c, outside net.c; they are treated like the system calls, as
    oracles of the environment, so every result holds whatever they
    do. *)

From Stdlib Require Import ZArith List Bool Lia.
From Stdlib Require Import Strings.String Strings.Ascii Strings.Byte.
Import ListNotations.
Open Scope string_scope.
Open Scope list_scope.
Open Scope Z_scope.

(** ** Constants of the system headers (Linux values) *)

Module Sys.
Definition MSG_ERRQUEUE : Z := 0x2000.
Definition CLOCK_REALTIME : Z := 0.
Definition LOG_ERR : Z := 3.
Definition LOG_INFO : Z := 6.
Definition EXIT_FAILURE : Z := 1.
Definition AF_INET6 : Z := 10.
Definition PF_INET6 : Z := AF_INET6.
Definition SOCK_STREAM : Z := 1.
Definition SOCK_DGRAM : Z := 2.
Definition IPPROTO_TCP : Z := 6.
Definition IPPROTO_UDP : Z := 17.
Definition IPPROTO_IPV6 : Z := 41.
Definition IPV6_V6ONLY : Z := 26.
Definition SOL_SOCKET : Z := 1.
Definition SO_REUSEADDR : Z := 2.
(** [in6addr_any], the 128-bit wildcard address. *)
Definition in6addr_any : Z := 0.
(** [sizeof (struct cmsghdr)] on LP64. *)
Definition sizeof_cmsghdr : nat := 16.
(** [htons] on a little-endian host: the two bytes of a 16-bit value
    swapped. *)
Definition htons (x : Z) : Z :=
  Z.lor (Z.shiftl (Z.land x 0xff) 8) (Z.land (Z.shiftr x 8) 0xff).
End Sys.
Import Sys.

(** ** Data *)

(** [ts_t]: the code clears it with [sizeof (struct timespec)] and hands
    it to [clock_gettime], so it is a [struct timespec]: two integers
    and nothing else. *)
Record ts_t : Type := mkTs { tv_sec : Z; tv_nsec : Z }.

Definition ts_zero : ts_t := mkTs 0 0.

(** [addr_t] / [struct sockaddr_in6]. *)
Record addr_t : Type := mkAddr {
  sin6_family : Z;
  sin6_port : Z;
  sin6_flowinfo : Z;
  sin6_addr : Z;
  sin6_scope_id : Z
}.

(** [pkt_t]: peer address, payload buffer and timestamp. *)
Record pkt_t : Type := mkPkt {
  pkt_addr : addr_t;
  pkt_data : list byte;
  pkt_ts : ts_t
}.

(** The process-wide configuration [cfg]; only [cfg.ts] is read here. *)
Record config : Type := mkCfg { cfg_ts : ascii }.

(** [struct msghdr] with the memory it points to: the name buffer, the
    single I/O vector (its length is [iov_len]) and the control buffer
    with its capacity. *)
Record msghdr : Type := mkMsg {
  msg_name : addr_t;
  msg_iov : list byte;
  msg_control : list byte;
  msg_controllen : nat
}.

(** What the kernel has for a [recvmsg]: an error, or a datagram with
    its source address and ancillary data. *)
Inductive recv_result : Type :=
| RecvErr
| RecvOk (dgram : list byte) (from : addr_t) (ancillary : list byte).

(** The argument that follows the format string of a [syslog] call. *)
Inductive log_arg : Type :=
| ArgNone
| ArgInt (n : Z)
| ArgStrerror (errno : Z).

(** Every interaction of the process with its surroundings, with the
    result it got. *)
Inductive event : Type :=
| EvRecvmsg (sock flags : Z) (msg : msghdr) (r : recv_result)
| EvTstampExtract (msg : msghdr) (rc : Z) (t : ts_t)
| EvClockGettime (clk : Z) (t : ts_t)
| EvSendto (sock : Z) (buf : list byte) (flags : Z) (dst : addr_t) (rc : Z)
| EvTstampFetchTx (sock : Z) (rc : Z) (t : ts_t)
| EvSyslog (prio : Z) (fmt : string) (arg : log_arg)
| EvSocket (domain type protocol : Z) (fd : Z)
| EvSetsockopt (fd level optname optval : Z) (rc : Z)
| EvBind (fd : Z) (a : addr_t) (rc : Z)
| EvListen (fd backlog : Z) (rc : Z)
| EvExit (status : Z).

Definition history : Type := list event.

(** The environment: the answer to each call, given everything that
    happened before it. *)
Record Env : Type := mkEnv {
  env_recvmsg : history -> Z -> Z -> recv_result;
  env_sendto : history -> Z -> list byte -> addr_t -> Z;
  env_clock_gettime : history -> Z -> ts_t;
  env_errno : history -> Z;
  env_socket : history -> Z -> Z -> Z -> Z;
  env_setsockopt : history -> Z -> Z -> Z -> Z -> Z;
  env_bind : history -> Z -> addr_t -> Z;
  env_listen : history -> Z -> Z -> Z;
  (** tstamp.c: the result code and the content left in the [ts] that
      was passed. *)
  env_tstamp_extract : history -> msghdr -> ts_t -> Z * ts_t;
  env_tstamp_fetch_tx : history -> Z -> ts_t -> Z * ts_t
}.

(** ** The monad *)

Inductive outcome (A : Type) : Type :=
| Returned (a : A)
| Exited (status : Z).
Arguments Returned {A} a.
Arguments Exited {A} status.

(** A computation sees the history and yields its outcome together with
    the events it added. *)
Definition M (A : Type) : Type := history -> outcome A * list event.

Definition ret {A} (a : A) : M A := fun _ => (Returned a, []).

Definition mbind {A B} (m : M A) (k : A -> M B) : M B :=
  fun h =>
    match m h with
    | (Returned a, e1) =>
        let (o, e2) := k a (h ++ e1) in (o, e1 ++ e2)
    | (Exited s, e1) => (Exited s, e1)
    end.

Declare Scope net_scope.
Delimit Scope net_scope with net.
Notation "x <- m ;; k" := (mbind m (fun x => k))
  (at level 61, m at next level, right associativity) : net_scope.
Notation "' p <- m ;; k" := (mbind m (fun x => let p := x in k))
  (at level 61, p pattern, m at next level, right associativity) : net_scope.
Notation "m ;; k" := (mbind m (fun _ => k))
  (at level 61, right associativity) : net_scope.
Open Scope net_scope.

(** ** Memory helpers *)

(** [memset(buf, c, n)]: the first [n] bytes become [c]. *)
Definition memset (buf : list byte) (c : byte) (n : nat) : list byte :=
  repeat c n ++ skipn n buf.

(** Bytes written at the start of a buffer. *)
Definition overwrite (src buf : list byte) : list byte :=
  src ++ skipn (List.length src) buf.

Section Net.

(** [DATALEN] is a constant of probed.h; everything is parametric in
    it. *)
Variable DATALEN : nat.
Variable env : Env.
Variable cfg : config.

(** *** System calls *)

Definition recvmsg (sock : Z) (msg : msghdr) (flags : Z) : M (Z * msghdr) :=
  fun h =>
    let r := env_recvmsg env h sock flags in
    let out :=
      match r with
      | RecvErr => (-1, msg)
      | RecvOk dgram from ancillary =>
          let n := Nat.min (List.length dgram) (List.length (msg_iov msg)) in
          (Z.of_nat n,
           mkMsg from
                 (overwrite (firstn n dgram) (msg_iov msg))
                 (firstn (msg_controllen msg) ancillary)
                 (msg_controllen msg))
      end in
    (Returned out, [EvRecvmsg sock flags msg r]).

Definition tstamp_extract (msg : msghdr) (ts : ts_t) : M (Z * ts_t) :=
  fun h =>
    let '(rc, ts') := env_tstamp_extract env h msg ts in
    (Returned (rc, ts'), [EvTstampExtract msg rc ts']).

Definition tstamp_fetch_tx (sock : Z) (ts : ts_t) : M (Z * ts_t) :=
  fun h =>
    let '(rc, ts') := env_tstamp_fetch_tx env h sock ts in
    (Returned (rc, ts'), [EvTstampFetchTx sock rc ts']).

Definition clock_gettime (clk : Z) : M ts_t :=
  fun h =>
    let t := env_clock_gettime env h clk in
    (Returned t, [EvClockGettime clk t]).

Definition sendto (sock : Z) (buf : list byte) (len : nat) (flags : Z)
    (dst : addr_t) : M Z :=
  fun h =>
    let rc := env_sendto env h sock (firstn len buf) dst in
    (Returned rc, [EvSendto sock (firstn len buf) flags dst rc]).

Definition syslog (prio : Z) (fmt : string) (arg : log_arg) : M unit :=
  fun _ => (Returned tt, [EvSyslog prio fmt arg]).

(** [strerror(errno)] as an argument of [syslog]. *)
Definition strerror_errno : M log_arg :=
  fun h => (Returned (ArgStrerror (env_errno env h)), []).

Definition socket (domain type protocol : Z) : M Z :=
  fun h =>
    let fd := env_socket env h domain type protocol in
    (Returned fd, [EvSocket domain type protocol fd]).

Definition setsockopt (fd level optname optval : Z) : M Z :=
  fun h =>
    let rc := env_setsockopt env h fd level optname optval in
    (Returned rc, [EvSetsockopt fd level optname optval rc]).

Definition bind (fd : Z) (a : addr_t) : M Z :=
  fun h =>
    let rc := env_bind env h fd a in
    (Returned rc, [EvBind fd a rc]).

Definition listen (fd backlog : Z) : M Z :=
  fun h =>
    let rc := env_listen env h fd backlog in
    (Returned rc, [EvListen fd backlog rc]).

Definition exit {A} (status : Z) : M A :=
  fun _ => (Exited status, [EvExit status]).

(** *** recv_w_ts

    [pkt] is the content of the caller's packet on entry; the result
    is the return value with the content on exit.  The message header
    points into the packet ([iov_base = pkt->data],
    [msg_name = &pkt->addr]), so what [recvmsg] wrote through it is
    copied back into the packet. *)

Definition sizeof_control : nat := (sizeof_cmsghdr + 512)%nat.

Definition recv_w_ts (sock flags : Z) (pkt : pkt_t) : M (Z * pkt_t) :=
  (* prepare message structure *)
  let data0 := memset (pkt_data pkt) x00 DATALEN in
  let msg := mkMsg (pkt_addr pkt) (firstn DATALEN data0) [] sizeof_control in
  ' (n, msg') <- recvmsg sock msg flags ;;
  if n <? 0 then
    (* Don't warn about err queue, send_w_ts will figure that out *)
    (if Z.land flags MSG_ERRQUEUE =? 0
     then (e <- strerror_errno ;; syslog LOG_INFO "recvmsg: %s" e)
     else ret tt) ;;
    ret (-1, mkPkt (pkt_addr pkt) data0 (pkt_ts pkt))
  else
    let addr1 := msg_name msg' in
    let data1 := overwrite (msg_iov msg') data0 in
    if negb (Z.land flags MSG_ERRQUEUE =? 0) then
      (* store kernel tx tstamp *)
      ' (rc, ts1) <- tstamp_extract msg' (pkt_ts pkt) ;;
      if rc <? 0 then ret (-1, mkPkt addr1 data1 ts1)
      else
        (* tx timestamp packet, just save and bail *)
        ret (0, mkPkt addr1 data1 ts1)
    else
      (* store rx tstamp *)
      ' (rc, ts1) <- tstamp_extract msg' (pkt_ts pkt) ;;
      (if rc <? 0 then syslog LOG_ERR "RX timestamp error" ArgNone
       else ret tt) ;;
      ret (0, mkPkt addr1 data1 ts1).

(** *** send_w_ts

    [ts] is the content of the caller's timestamp on entry; the result
    is the return value with the content on exit. *)

Definition send_w_ts (sock : Z) (addr : addr_t) (data : list byte)
    (ts : ts_t) : M (Z * ts_t) :=
  let ts0 := ts_zero in
  (* get userland tx timestamp (before send, hehe) *)
  ts1 <- (if Ascii.eqb (cfg_ts cfg) "u"%char
          then clock_gettime CLOCK_REALTIME
          else ret ts0) ;;
  (* do the send *)
  rc <- sendto sock data DATALEN 0 addr ;;
  if rc <? 0 then
    e <- strerror_errno ;;
    syslog LOG_INFO "sendto: %s" e ;;
    ret (-1, ts1)
  else
    (* get kernel tx timestamp *)
    if negb (Ascii.eqb (cfg_ts cfg) "u"%char) then
      ' (r, ts2) <- tstamp_fetch_tx sock ts1 ;;
      if r <? 0 then
        syslog LOG_ERR "TX timestamp error" ArgNone ;;
        ret (-1, ts2)
      else ret (0, ts2)
    else ret (0, ts1).

(** *** bind_or_die

    [my] is the uninitialised stack slot of the local address: the
    code sets its family, port and address and leaves the other two
    fields as they are.  The result is the pair of sockets. *)

(** The format string of the first message; it ends in a newline. *)
Definition fmt_binding : string :=
  String.append "Binding port %d" (String "010"%char EmptyString).

Definition die {A} (fmt : string) : M A :=
  e <- strerror_errno ;;
  syslog LOG_ERR fmt e ;;
  exit EXIT_FAILURE.

Definition warn (fmt : string) : M unit :=
  e <- strerror_errno ;;
  syslog LOG_ERR fmt e.

Definition bind_or_die (my : addr_t) (port : Z) : M (Z * Z) :=
  syslog LOG_INFO fmt_binding (ArgInt port) ;;
  let my := mkAddr AF_INET6 (htons port) (sin6_flowinfo my) in6addr_any
                   (sin6_scope_id my) in
  (* UDP socket *)
  s_udp <- socket PF_INET6 SOCK_DGRAM IPPROTO_UDP ;;
  (if s_udp <? 0 then die "socket: %s" else ret tt) ;;
  (* Give us a dual-stack (ipv4/6) socket *)
  r <- setsockopt s_udp IPPROTO_IPV6 IPV6_V6ONLY 0 ;;
  (if r <? 0 then warn "setsockopt: IPV6_V6ONLY: %s" else ret tt) ;;
  (* Bind port *)
  r <- bind s_udp my ;;
  (if r <? 0 then die "bind: %s" else ret tt) ;;
  (* TCP socket *)
  s_tcp <- socket PF_INET6 SOCK_STREAM IPPROTO_TCP ;;
  (if s_tcp <? 0 then die "socket: %s" else ret tt) ;;
  (* Give us a dual-stack (ipv4/6) socket *)
  r <- setsockopt s_tcp IPPROTO_IPV6 IPV6_V6ONLY 0 ;;
  (if r <? 0 then warn "setsockopt: IPV6_V6ONLY: %s" else ret tt) ;;
  r <- setsockopt s_tcp SOL_SOCKET SO_REUSEADDR 1 ;;
  (if r <? 0 then warn "setsockopt: SO_REUSEADDR: %s" else ret tt) ;;
  (* Bind port *)
  r <- bind s_tcp my ;;
  (if r <? 0 then die "bind: %s" else ret tt) ;;
  r <- listen s_tcp 10 ;;
  (if r =? -1 then die "listen: %s" else ret tt) ;;
  ret (s_udp, s_tcp).

End Net.

(** ** Reading a run *)

Definition result {A} (r : outcome A * list event) : outcome A := fst r.
Definition events {A} (r : outcome A * list event) : list event := snd r.

(** A transport failure of [recvmsg]. *)
Definition is_recvmsg_failure (e : event) : bool :=
  match e with EvRecvmsg _ _ _ RecvErr => true | _ => false end.

(** A failed timestamp extraction. *)
Definition is_extract_failure (e : event) : bool :=
  match e with EvTstampExtract _ rc _ => rc <? 0 | _ => false end.

(** A failed [sendto]. *)
Definition is_sendto_failure (e : event) : bool :=
  match e with EvSendto _ _ _ _ rc => rc <? 0 | _ => false end.

(** A failed fetch of the kernel TX timestamp. *)
Definition is_fetch_tx_failure (e : event) : bool :=
  match e with EvTstampFetchTx _ rc _ => rc <? 0 | _ => false end.

Definition is_exit (e : event) : bool :=
  match e with EvExit _ => true | _ => false end.

Definition is_syslog (e : event) : bool :=
  match e with EvSyslog _ _ _ => true | _ => false end.

(** A failed socket acquisition step of the binder, as the code tests
    it: [socket] and [bind] below zero, [listen] equal to -1. *)
Definition is_acquisition_failure (e : event) : bool :=
  match e with
  | EvSocket _ _ _ fd => fd <? 0
  | EvBind _ _ rc => rc <? 0
  | EvListen _ _ rc => rc =? -1
  | _ => false
  end.

(** The datagram a run handed to the network: the bytes of its first
    [sendto] that did not fail. *)
Fixpoint transmitted (evs : list event) : option (list byte) :=
  match evs with
  | [] => None
  | EvSendto _ buf _ _ rc :: rest =>
      if rc <? 0 then transmitted rest else Some buf
  | _ :: rest => transmitted rest
  end.

(** The payload of a packet: the first [n] bytes of its data buffer. *)
Definition payload (n : nat) (pkt : pkt_t) : list byte :=
  firstn n (pkt_data pkt).

(** The message header [recv_w_ts] hands to [recvmsg]: the payload
    buffer cleared, the control buffer empty. *)
Definition recv_msg (DATALEN : nat) (pkt : pkt_t) : msghdr :=
  mkMsg (pkt_addr pkt) (repeat x00 DATALEN) [] sizeof_control.

(** A datagram as it lies in the cleared payload buffer: its first
    [DATALEN] bytes, then zeros up to [DATALEN]. *)
Definition padded (DATALEN : nat) (d : list byte) : list byte :=
  firstn DATALEN d ++ repeat x00 (DATALEN - List.length d).

(** The message header after [recvmsg] delivered a datagram. *)
Definition filled_msg (DATALEN : nat) (d : list byte) (from : addr_t)
    (anc : list byte) : msghdr :=
  mkMsg from (padded DATALEN d) (firstn sizeof_control anc) sizeof_control.

(** A property of the run of [m] after the history [h]. *)
Definition wp {A} (m : M A) (h : history)
    (Q : outcome A -> list event -> Prop) : Prop :=
  Q (result (m h)) (events (m h)).

(** The address [bind_or_die] binds both sockets to. *)
Definition bound_addr (my : addr_t) (port : Z) : addr_t :=
  mkAddr AF_INET6 (htons port) (sin6_flowinfo my) in6addr_any
         (sin6_scope_id my).

(** ** Scenarios used to run the model *)

Module Scenario.

Definition peer : addr_t := mkAddr AF_INET6 (htons 60666) 0 1 0.
Definition probe : list byte := [x01; x02; x03; x04].
Definition short_probe : list byte := [x0a; x0b].
Definition stamp : ts_t := mkTs 1291161600 250.
Definition blank_pkt : pkt_t :=
  mkPkt (mkAddr 0 0 0 0 0) [xff; xff; xff; xff] ts_zero.
Definition stale_pkt : pkt_t :=
  mkPkt (mkAddr 0 0 0 0 0) [xff; xff; xff; xff] stamp.
Definition userland : config := mkCfg "u"%char.
Definition kernel : config := mkCfg "k"%char.

(** Everything succeeds: a datagram [probe] is waiting, the clock
    reads [stamp], timestamps are found. *)
Definition env_ok : Env :=
  mkEnv (fun _ _ _ => RecvOk probe peer [])
        (fun _ _ buf _ => Z.of_nat (List.length buf))
        (fun _ _ => stamp)
        (fun _ => 0)
        (fun h _ _ _ => 3 + Z.of_nat (List.length h))
        (fun _ _ _ _ _ => 0)
        (fun _ _ _ => 0)
        (fun _ _ _ => 0)
        (fun _ _ _ => (0, stamp))
        (fun _ _ _ => (0, stamp)).

(** As [env_ok], but no timestamp is found: [tstamp_extract] and
    [tstamp_fetch_tx] fail and leave [ts] as it was. *)
Definition env_no_ts : Env :=
  mkEnv (env_recvmsg env_ok) (env_sendto env_ok)
        (env_clock_gettime env_ok) (env_errno env_ok)
        (env_socket env_ok) (env_setsockopt env_ok)
        (env_bind env_ok) (env_listen env_ok)
        (fun _ _ ts => (-1, ts))
        (fun _ _ ts => (-1, ts)).

(** As [env_ok], but a shorter datagram is waiting. *)
Definition env_short : Env :=
  mkEnv (fun _ _ _ => RecvOk short_probe peer [])
        (env_sendto env_ok)
        (env_clock_gettime env_ok) (env_errno env_ok)
        (env_socket env_ok) (env_setsockopt env_ok)
        (env_bind env_ok) (env_listen env_ok)
        (env_tstamp_extract env_ok) (env_tstamp_fetch_tx env_ok).

(** The network is down: [recvmsg] and [sendto] fail with errno 101. *)
Definition env_down : Env :=
  mkEnv (fun _ _ _ => RecvErr)
        (fun _ _ _ _ => -1)
        (env_clock_gettime env_ok)
        (fun _ => 101)
        (env_socket env_ok) (env_setsockopt env_ok)
        (env_bind env_ok) (env_listen env_ok)
        (env_tstamp_extract env_ok) (env_tstamp_fetch_tx env_ok).

(** Sockets are created and bound, but no socket option can be set. *)
Definition env_no_sockopt : Env :=
  mkEnv (env_recvmsg env_ok) (env_sendto env_ok)
        (env_clock_gettime env_ok)
        (fun _ => 92)
        (env_socket env_ok)
        (fun _ _ _ _ _ => -1)
        (env_bind env_ok) (env_listen env_ok)
        (env_tstamp_extract env_ok) (env_tstamp_fetch_tx env_ok).

(** The port is taken: [bind] fails with errno 98. *)
Definition env_port_taken : Env :=
  mkEnv (env_recvmsg env_ok) (env_sendto env_ok)
        (env_clock_gettime env_ok)
        (fun _ => 98)
        (env_socket env_ok) (env_setsockopt env_ok)
        (fun _ _ _ => -1)
        (env_listen env_ok)
        (env_tstamp_extract env_ok) (env_tstamp_fetch_tx env_ok).

End Scenario.

(** How many events of a kind a run has. *)
Definition count (p : event -> bool) (evs : list event) : nat :=
  List.length (filter p evs).

Definition is_recvmsg (e : event) : bool :=
  match e with EvRecvmsg _ _ _ _ => true | _ => false end.

Definition is_extract (e : event) : bool :=
  match e with EvTstampExtract _ _ _ => true | _ => false end.

Definition is_sendto (e : event) : bool :=
  match e with EvSendto _ _ _ _ _ => true | _ => false end.

Definition is_clock_read (e : event) : bool :=
  match e with EvClockGettime _ _ => true | _ => false end.

Definition is_fetch_tx (e : event) : bool :=
  match e with EvTstampFetchTx _ _ _ => true | _ => false end.

(** The format of the message the binder logs for a failed [socket],
    [bind] or [listen]. *)
Definition failure_message (e : event) : string :=
  match e with
  | EvSocket _ _ _ _ => "socket: %s"
  | EvBind _ _ _ => "bind: %s"
  | EvListen _ _ _ => "listen: %s"
  | _ => EmptyString
  end.

(** ** The manager's start-up script (manager/sla-ng-manager)

    The script is Python: every call may raise, [sys.exit] raises
    [SystemExit], and an exception leaves the function it is raised in
    unless a matching [except] clause takes it.  A computation yields a
    value or an exception, together with the calls it made; the answer
    to each call (a value or an exception) comes from the environment,
    given the calls made so far. *)

Module SlaNgManager.

(** Exceptions, by class.  [OtherError] stands for any class that is
    not one of those named. *)
Inductive exn : Type :=
| OSError (errno : Z) (strerror : string)
| IOError (errno : Z) (strerror : string)
| SystemExit (status : Z)
| ManagerError
| OtherError (name : string).

Inductive answer (A : Type) : Type :=
| Val (a : A)
| Exc (e : exn).
Arguments Val {A} a.
Arguments Exc {A} e.

(** A reference to a Python object (a logger, a handler, a file...). *)
Definition obj : Type := Z.

(** The objects whose [fileno()] is asked for. *)
Inductive fileref : Type :=
| FileObj (f : obj)
| SysStdin
| SysStdout
| SysStderr.

(** The option values [parse_args] returns. *)
Record options : Type := mkOptions {
  cfg_path : string;
  mode : string;
  verbose : bool
}.

(** The [default] of an option. *)
Inductive optdefault : Type :=
| DefStr (s : string)
| DefBool (b : bool).

(** Calls that return an integer. *)
Inductive intcall : Type :=
| Fork
| Umask (mask : Z)
| Fileno (f : fileref).

(** Calls that return [None] (or a value the script drops). *)
Inductive unitcall : Type :=
| Chdir (path : string)
| Setsid
| Dup2 (fd fd2 : Z)
| StderrWrite (fmt : string) (errno : Z) (strerror : string)
| AddOption (p : obj) (flag dest : string) (action : option string)
    (default : optdefault) (help : string) (metavar : option string)
| SetLevel (o : obj) (level : Z)
| SetFormatter (h f : obj)
| AddHandler (logger h : obj)
| LogInfo (logger : obj) (msg : string)
| Print (msg : string)
| Signal (signum : Z) (m : obj)
| Run (m : obj)
| Stop (m : obj).

(** Calls that return an object. *)
Inductive objcall : Type :=
| Open (name mode : string) (buffering : option Z)
| NewOptionParser
| GetLogger
| NewFormatter (fmt : string)
| NewSysLogHandler (address : string)
| NewStreamHandler
| NewManager (cfg_path : string).

(** A call with its answer. *)
Inductive pyevent : Type :=
| PyInt (c : intcall) (a : answer Z)
| PyUnit (c : unitcall) (a : answer unit)
| PyObj (c : objcall) (a : answer obj)
| PyParseArgs (p : obj) (a : answer options).

Record PyEnv : Type := mkPyEnv {
  py_int : list pyevent -> intcall -> answer Z;
  py_unit : list pyevent -> unitcall -> answer unit;
  py_obj : list pyevent -> objcall -> answer obj;
  py_parse_args : list pyevent -> obj -> answer options
}.

Inductive pyoutcome (A : Type) : Type :=
| Returned (a : A)
| Raised (e : exn).
Arguments Returned {A} a.
Arguments Raised {A} e.

Definition P (A : Type) : Type :=
  list pyevent -> pyoutcome A * list pyevent.

Definition ret {A} (a : A) : P A := fun _ => (Returned a, []).

Definition raise {A} (e : exn) : P A := fun _ => (Raised e, []).

Definition bind {A B} (m : P A) (k : A -> P B) : P B :=
  fun h =>
    match m h with
    | (Returned a, e1) => let (o, e2) := k a (h ++ e1) in (o, e1 ++ e2)
    | (Raised e, e1) => (Raised e, e1)
    end.

(** [try: body except ...: handler]: [handler e] is [None] when no
    clause matches the class of [e]. *)
Definition try_except {A} (body : P A) (handler : exn -> option (P A))
    : P A :=
  fun h =>
    match body h with
    | (Returned a, e1) => (Returned a, e1)
    | (Raised e, e1) =>
        match handler e with
        | Some k => let (o, e2) := k (h ++ e1) in (o, e1 ++ e2)
        | None => (Raised e, e1)
        end
    end.

Definition of_answer {A} (a : answer A) : pyoutcome A :=
  match a with Val v => Returned v | Exc e => Raised e end.

Declare Scope py_scope.
Delimit Scope py_scope with py.
Notation "x <- m ;; k" := (bind m (fun x => k))
  (at level 61, m at next level, right associativity) : py_scope.
Notation "m ;; k" := (bind m (fun _ => k))
  (at level 61, right associativity) : py_scope.
Local Open Scope py_scope.

(** Constants of the [logging] and [signal] modules. *)
Definition DEBUG : Z := 10.
Definition INFO : Z := 20.
Definition SIGINT : Z := 2.
Definition SIGTERM : Z := 15.

Definition newline : string := String "010"%char EmptyString.

Section Script.

Variable env : PyEnv.

Definition call_int (c : intcall) : P Z :=
  fun h => let a := py_int env h c in (of_answer a, [PyInt c a]).

Definition call_unit (c : unitcall) : P unit :=
  fun h => let a := py_unit env h c in (of_answer a, [PyUnit c a]).

Definition call_obj (c : objcall) : P obj :=
  fun h => let a := py_obj env h c in (of_answer a, [PyObj c a]).

Definition parse_args (p : obj) : P options :=
  fun h => let a := py_parse_args env h p in (of_answer a, [PyParseArgs p a]).

(** [sys.exit(status)] *)
Definition sys_exit {A} (status : Z) : P A := raise (SystemExit status).

(** The messages of the two [except OSError, e] clauses. *)
Definition fmt_fork1 : string := "fork #1 failed: (%d) %s" ++ newline.
Definition fmt_fork2 : string := "fork #2 failed: (%d) %s" ++ newline.

Definition daemonize (stdin stdout stderr : string) : P unit :=
  (* Fork! *)
  try_except
    (pid <- call_int Fork ;;
     if pid >? 0 then sys_exit 0 else ret tt)
    (fun e =>
       match e with
       | OSError errno strerror =>
           Some (call_unit (StderrWrite fmt_fork1 errno strerror) ;;
                 sys_exit 1)
       | _ => None
       end) ;;
  (* Behave nicely... *)
  call_unit (Chdir "/") ;;
  call_int (Umask 0) ;;
  call_unit Setsid ;;
  (* Fork again! *)
  try_except
    (pid <- call_int Fork ;;
     if pid >? 0 then sys_exit 0 else ret tt)
    (fun e =>
       match e with
       | OSError errno strerror =>
           Some (call_unit (StderrWrite fmt_fork2 errno strerror) ;;
                 sys_exit 1)
       | _ => None
       end) ;;
  (* open ordinary input & output streams *)
  si <- call_obj (Open stdin "r" None) ;;
  so <- call_obj (Open stdout "a+" None) ;;
  se <- call_obj (Open stderr "a+" (Some 0)) ;;
  a <- call_int (Fileno (FileObj si)) ;;
  b <- call_int (Fileno SysStdin) ;;
  call_unit (Dup2 a b) ;;
  a <- call_int (Fileno (FileObj so)) ;;
  b <- call_int (Fileno SysStdout) ;;
  call_unit (Dup2 a b) ;;
  a <- call_int (Fileno (FileObj se)) ;;
  b <- call_int (Fileno SysStderr) ;;
  call_unit (Dup2 a b).

Definition help_f : string := "read config from file CFG_PATH".
Definition help_m : string :=
  "set daemon mode to MODE where 'bg' (default) makes the program detach run "
  ++ "in background and anything else makes it run in foreground".
Definition help_v : string := "verbose; enable debug output".

(** The body of [if __name__ == '__main__']. *)
Definition main : P unit :=
  (* Read command-line arguments *)
  p <- call_obj NewOptionParser ;;
  call_unit (AddOption p "-f" "cfg_path" None
               (DefStr "/etc/sla-ng/manager.conf") help_f (Some "CFG_PATH")) ;;
  call_unit (AddOption p "-m" "mode" None (DefStr "bg") help_m
               (Some "MODE")) ;;
  call_unit (AddOption p "-v" "verbose" (Some "store_true") (DefBool false)
               help_v None) ;;
  opts <- parse_args p ;;
  (* set up logging *)
  logger <- call_obj GetLogger ;;
  (if verbose opts
   then call_unit (SetLevel logger DEBUG)
   else call_unit (SetLevel logger INFO)) ;;
  lformat <- call_obj (NewFormatter "sla-ng-manager: %(name)s: %(message)s") ;;
  (* daemonize *)
  l <- (if String.eqb (mode opts) "bg" then
          daemonize "/dev/null" "/dev/null" "/dev/null" ;;
          l <- call_obj (NewSysLogHandler "/dev/log") ;;
          call_unit (SetFormatter l lformat) ;;
          ret l
        else
          l <- call_obj NewStreamHandler ;;
          call_unit (SetFormatter l lformat) ;;
          ret l) ;;
  (if verbose opts
   then call_unit (SetLevel l DEBUG)
   else call_unit (SetLevel l INFO)) ;;
  call_unit (AddHandler logger l) ;;
  (* start up the manager *)
  call_unit (LogInfo logger "Starting up SLA-NG manager...") ;;
  m <- try_except
         (call_obj (NewManager (cfg_path opts)))
         (fun e =>
            match e with
            | ManagerError =>
                Some (call_unit (Print "Cannot start manager. Exiting.") ;;
                      sys_exit 0)
            | _ => None
            end) ;;
  (* set signal handlers *)
  call_unit (Signal SIGINT m) ;;
  call_unit (Signal SIGTERM m) ;;
  (* Start thread! *)
  call_unit (Run m) ;;
  call_unit (Stop m) ;;
  call_unit (LogInfo logger "Exiting SLA-NG manager; run() finished") ;;
  sys_exit 0.

End Script.

(** *** Reading a run of the script *)

Definition py_result {A} (r : pyoutcome A * list pyevent) : pyoutcome A :=
  fst r.
Definition py_calls {A} (r : pyoutcome A * list pyevent) : list pyevent :=
  snd r.

(** The exception a call was answered with, if any. *)
Definition raised_by (e : pyevent) : option exn :=
  match e with
  | PyInt _ (Exc x) | PyUnit _ (Exc x) | PyObj _ (Exc x)
  | PyParseArgs _ (Exc x) => Some x
  | _ => None
  end.

(** A call that was answered with [SystemExit]. *)
Definition raised_system_exit (e : pyevent) : bool :=
  match raised_by e with Some (SystemExit _) => true | _ => false end.

(** An [os.fork()] that raised [OSError]. *)
Definition is_failed_fork (e : pyevent) : bool :=
  match e with PyInt Fork (Exc (OSError _ _)) => true | _ => false end.


(** An [os.setsid()] that returned. *)
Definition is_new_session (e : pyevent) : bool :=
  match e with PyUnit Setsid (Val _) => true | _ => false end.


(** [open] and [os.dup2]: the calls that redirect the standard
    streams. *)
Definition is_redirect (e : pyevent) : bool :=
  match e with
  | PyObj (Open _ _ _) _ | PyUnit (Dup2 _ _) _ => true
  | _ => false
  end.




(** The outcome after a call that is the last thing before
    [sys.exit(status)]: the exit, or the exception of the call. *)
Definition then_exit {A} (a : answer unit) (status : Z) : pyoutcome A :=
  match a with Val _ => Raised (SystemExit status) | Exc e => Raised e end.

(** An [os.fork()], whatever it answered. *)
Definition is_fork (e : pyevent) : bool :=
  match e with PyInt Fork _ => true | _ => false end.

(** A property of the run of [m] after the calls [h]. *)
Definition pwp {A} (m : P A) (h : list pyevent)
    (Q : pyoutcome A -> list pyevent -> Prop) : Prop :=
  Q (py_result (m h)) (py_calls (m h)).

(** [f pre x post] for every way to split a list into [pre ++ x :: post]:
    the conjunction of the properties [f] asks for. *)
Fixpoint on_each_split {A} (f : list A -> A -> list A -> option Prop)
    (pre l : list A) : Prop :=
  match l with
  | [] => True
  | x :: post =>
      match f pre x post with
      | Some Q => Q /\ on_each_split f (pre ++ [x]) post
      | None => on_each_split f (pre ++ [x]) post
      end
  end.

(** Every [setLevel] of a list of calls sets the level [lvl]. *)
Fixpoint all_levels (lvl : Z) (l : list pyevent) : Prop :=
  match l with
  | [] => True
  | PyUnit (SetLevel _ level) _ :: rest => level = lvl /\ all_levels lvl rest
  | _ :: rest => all_levels lvl rest
  end.

(** *** Scenarios *)

Definition is_open (e : pyevent) : bool :=
  match e with PyObj (Open _ _ _) _ => true | _ => false end.

(** An environment in which every call returns, except as given: the
    parsed options, the answers of the first and of the second fork,
    of the manager's constructor and of its [run]. *)
Definition scenario (opts : options) (fork1 fork2 : answer Z)
    (manager : answer obj) (run : answer unit) : PyEnv :=
  mkPyEnv
    (fun h c =>
       match c with
       | Fork => if existsb is_fork h then fork2 else fork1
       | Umask _ => Val 18
       | Fileno (FileObj f) => Val f
       | Fileno SysStdin => Val 0
       | Fileno SysStdout => Val 1
       | Fileno SysStderr => Val 2
       end)
    (fun _ c => match c with Run _ => run | _ => Val tt end)
    (fun h c =>
       match c with
       | Open _ _ _ => Val (3 + Z.of_nat (List.length (filter is_open h)))
       | NewManager _ => manager
       | _ => Val (100 + Z.of_nat (List.length h))
       end)
    (fun _ _ => Val opts).

Definition background : options :=
  mkOptions "/etc/sla-ng/manager.conf" "bg" false.
Definition foreground_verbose : options :=
  mkOptions "/tmp/manager.conf" "fg" true.

Definition dev_null : string := "/dev/null".

(** Both forks return in the child and every call returns. *)
Definition env_daemon : PyEnv :=
  scenario background (Val 0) (Val 0) (Val 7) (Val tt).

(** The second fork returns the pid of its child. *)
Definition env_session_leader : PyEnv :=
  scenario background (Val 0) (Val 4712) (Val 7) (Val tt).

(** The first fork fails. *)
Definition env_no_fork : PyEnv :=
  scenario background (Exc (OSError 11 "Resource temporarily unavailable"))
    (Val 0) (Val 7) (Val tt).

(** Foreground, verbose, every call returns. *)
Definition env_fg : PyEnv :=
  scenario foreground_verbose (Val 0) (Val 0) (Val 7) (Val tt).

(** Foreground; the manager cannot be created. *)
Definition env_fg_no_manager : PyEnv :=
  scenario foreground_verbose (Val 0) (Val 0) (Exc ManagerError) (Val tt).

(** Foreground; [run] is interrupted. *)
Definition env_fg_interrupted : PyEnv :=
  scenario foreground_verbose (Val 0) (Val 0) (Val 7)
    (Exc (OtherError "KeyboardInterrupt")).

End SlaNgManager.

(** ** Buffers *)

Section Buffers.

Lemma skipn_repeat (c : byte) (k n : nat) :
  skipn k (repeat c n) = repeat c (n - k).
Proof.
  revert n; induction k as [|k IH]; intros [|n]; simpl; auto.
Qed.

Lemma firstn_memset (buf : list byte) (c : byte) (n : nat) :
  firstn n (memset buf c n) = repeat c n.
Proof.
  unfold memset.
  rewrite firstn_app, repeat_length, Nat.sub_diag, firstn_O, app_nil_r.
  apply firstn_all2. rewrite repeat_length. lia.
Qed.

Lemma firstn_min_length (d : list byte) (n : nat) :
  firstn (Nat.min (List.length d) n) d = firstn n d.
Proof.
  destruct (Nat.le_ge_cases (List.length d) n) as [Hle | Hge].
  - rewrite Nat.min_l by exact Hle.
    rewrite firstn_all. symmetry. now apply firstn_all2.
  - now rewrite Nat.min_r.
Qed.

(** A datagram written over a cleared buffer of [n] bytes: its first
    [n] bytes, then the zeros that were not overwritten. *)
Lemma overwrite_cleared (d : list byte) (c : byte) (n : nat) :
  overwrite (firstn (Nat.min (List.length d) n) d) (repeat c n)
  = firstn n d ++ repeat c (n - List.length d).
Proof.
  unfold overwrite. rewrite firstn_min_length, skipn_repeat.
  f_equal. f_equal. rewrite length_firstn. lia.
Qed.

Lemma firstn_overwrite (src buf : list byte) :
  firstn (List.length src) (overwrite src buf) = src.
Proof.
  unfold overwrite.
  rewrite firstn_app, Nat.sub_diag, firstn_O, app_nil_r.
  apply firstn_all.
Qed.

Lemma length_cleared (d : list byte) (c : byte) (n : nat) :
  List.length (firstn n d ++ repeat c (n - List.length d)) = n.
Proof. rewrite length_app, length_firstn, repeat_length. lia. Qed.

End Buffers.

(** ** Running the functions *)

Ltac net_simpl :=
  cbv beta iota zeta delta
    [recv_w_ts send_w_ts bind_or_die die warn mbind ret recvmsg
     tstamp_extract tstamp_fetch_tx clock_gettime sendto syslog
     strerror_errno socket setsockopt bind listen exit result events];
  cbn [app fst snd negb msg_name msg_iov msg_control msg_controllen
       pkt_addr pkt_data pkt_ts].

(** ** Receive *)

Section Receive.

Variable DATALEN : nat.
Variable env : Env.

Lemma recvmsg_count_nonneg (d : list byte) :
  (Z.of_nat (Nat.min (List.length d) (List.length (repeat x00 DATALEN)))
   <? 0) = false.
Proof. apply Z.ltb_ge. lia. Qed.

(** The run of [recv_w_ts] when [recvmsg] fails. *)
Lemma recv_w_ts_recvmsg_failed (sock flags : Z) (pkt : pkt_t) (h : history) :
  env_recvmsg env h sock flags = RecvErr ->
  recv_w_ts DATALEN env sock flags pkt h
  = (Returned (-1, mkPkt (pkt_addr pkt)
                         (memset (pkt_data pkt) x00 DATALEN)
                         (pkt_ts pkt)),
     EvRecvmsg sock flags (recv_msg DATALEN pkt) RecvErr ::
     (if Z.land flags MSG_ERRQUEUE =? 0
      then [EvSyslog LOG_INFO "recvmsg: %s"
              (ArgStrerror
                 (env_errno env
                    (h ++ [EvRecvmsg sock flags (recv_msg DATALEN pkt) RecvErr])))]
      else [])).
Proof.
  intros Hrecv. unfold recv_msg. net_simpl.
  rewrite firstn_memset, Hrecv. net_simpl.
  destruct (Z.land flags MSG_ERRQUEUE =? 0); reflexivity.
Qed.

(** The run of [recv_w_ts] when [recvmsg] delivers the datagram [d]
    and [tstamp_extract] then answers [rc] and leaves [t]. *)
Lemma recv_w_ts_delivered (sock flags : Z) (pkt : pkt_t) (h : history)
    (d : list byte) (from : addr_t) (anc : list byte) (rc : Z) (t : ts_t) :
  env_recvmsg env h sock flags = RecvOk d from anc ->
  env_tstamp_extract env
    (h ++ [EvRecvmsg sock flags (recv_msg DATALEN pkt) (RecvOk d from anc)])
    (filled_msg DATALEN d from anc) (pkt_ts pkt) = (rc, t) ->
  recv_w_ts DATALEN env sock flags pkt h
  = (Returned
       ((if Z.land flags MSG_ERRQUEUE =? 0 then 0
         else if rc <? 0 then -1 else 0),
        mkPkt from
              (overwrite (padded DATALEN d) (memset (pkt_data pkt) x00 DATALEN))
              t),
     EvRecvmsg sock flags (recv_msg DATALEN pkt) (RecvOk d from anc) ::
     EvTstampExtract (filled_msg DATALEN d from anc) rc t ::
     (if Z.land flags MSG_ERRQUEUE =? 0
      then if rc <? 0 then [EvSyslog LOG_ERR "RX timestamp error" ArgNone]
           else []
      else [])).
Proof.
  intros Hrecv Hext. unfold recv_msg, filled_msg, padded in *. net_simpl.
  rewrite firstn_memset, Hrecv. net_simpl.
  rewrite recvmsg_count_nonneg, repeat_length, overwrite_cleared.
  destruct (Z.land flags MSG_ERRQUEUE =? 0); net_simpl;
    rewrite Hext; net_simpl; destruct (rc <? 0); reflexivity.
Qed.

Lemma payload_delivered (d data : list byte) (from : addr_t) (t : ts_t) :
  payload DATALEN
    (mkPkt from (overwrite (padded DATALEN d) (memset data x00 DATALEN)) t)
  = padded DATALEN d.
Proof.
  unfold payload, padded. cbn [pkt_data].
  rewrite <- (length_cleared d x00 DATALEN) at 1.
  apply firstn_overwrite.
Qed.

End Receive.

(** C10. [recv_w_ts] clears the [DATALEN] bytes of the payload buffer
    before [recvmsg] is issued (the buffer the call is given is all
    zeros), and after a receive that delivered a datagram shorter than
    [DATALEN] the payload is the datagram followed by zero bytes. *)
Theorem recv_w_ts_short_datagram_zero_tail :
  forall (DATALEN : nat) (env : Env) (sock flags : Z) (pkt : pkt_t)
         (h : history) (d : list byte) (from : addr_t) (anc : list byte),
    env_recvmsg env h sock flags = RecvOk d from anc ->
    (List.length d < DATALEN)%nat ->
    exists rc pkt' rest,
      recv_w_ts DATALEN env sock flags pkt h
      = (Returned (rc, pkt'),
         EvRecvmsg sock flags
           (mkMsg (pkt_addr pkt) (repeat x00 DATALEN) [] sizeof_control)
           (RecvOk d from anc) :: rest)
      /\ payload DATALEN pkt' = d ++ repeat x00 (DATALEN - List.length d).
Proof.
  intros DATALEN env sock flags pkt h d from anc Hrecv Hshort.
  destruct (env_tstamp_extract env
              (h ++ [EvRecvmsg sock flags (recv_msg DATALEN pkt)
                       (RecvOk d from anc)])
              (filled_msg DATALEN d from anc) (pkt_ts pkt)) as [rc t] eqn:Hext.
  rewrite (recv_w_ts_delivered DATALEN env _ _ _ _ _ _ _ _ _ Hrecv Hext).
  do 3 eexists. split; [reflexivity|].
  rewrite payload_delivered. unfold padded.
  rewrite firstn_all2 by lia. reflexivity.
Qed.

(** A short datagram received into a four-byte payload. *)
Lemma recv_w_ts_short_datagram_zero_tail_run :
  exists rc pkt' rest,
    recv_w_ts 4 Scenario.env_short 3 0 Scenario.blank_pkt []
    = (Returned (rc, pkt'),
       EvRecvmsg 3 0
         (mkMsg (pkt_addr Scenario.blank_pkt) (repeat x00 4) [] sizeof_control)
         (RecvOk Scenario.short_probe Scenario.peer []) :: rest)
    /\ payload 4 pkt' = Scenario.short_probe ++ repeat x00 (4 - 2).
Proof.
  apply (recv_w_ts_short_datagram_zero_tail 4 Scenario.env_short 3 0
           Scenario.blank_pkt [] Scenario.short_probe Scenario.peer []).
  - reflexivity.
  - simpl. lia.
Defined.

(** ** Send *)

Section Send.

Variable DATALEN : nat.
Variable env : Env.
Variable cfg : config.

(** The run of [send_w_ts] in userland mode. *)
Lemma send_w_ts_userland (sock : Z) (addr : addr_t) (data : list byte)
    (ts : ts_t) (h : history) :
  cfg_ts cfg = "u"%char ->
  let t := env_clock_gettime env h CLOCK_REALTIME in
  let e1 := EvClockGettime CLOCK_REALTIME t in
  let rc := env_sendto env (h ++ [e1]) sock (firstn DATALEN data) addr in
  let e2 := EvSendto sock (firstn DATALEN data) 0 addr rc in
  send_w_ts DATALEN env cfg sock addr data ts h
  = (Returned ((if rc <? 0 then -1 else 0), t),
     e1 :: e2 ::
     (if rc <? 0
      then [EvSyslog LOG_INFO "sendto: %s"
              (ArgStrerror (env_errno env (h ++ [e1; e2])))]
      else [])).
Proof.
  intros Hu. net_simpl. rewrite Hu. cbn [Ascii.eqb Bool.eqb]. net_simpl.
  rewrite <- app_assoc. cbn [app].
  destruct (env_sendto env _ sock (firstn DATALEN data) addr <? 0);
    reflexivity.
Qed.

(** The run of [send_w_ts] in kernel mode. *)
Lemma send_w_ts_kernel (sock : Z) (addr : addr_t) (data : list byte)
    (ts : ts_t) (h : history) :
  cfg_ts cfg <> "u"%char ->
  let rc := env_sendto env h sock (firstn DATALEN data) addr in
  let e1 := EvSendto sock (firstn DATALEN data) 0 addr rc in
  let fetched := env_tstamp_fetch_tx env (h ++ [e1]) sock ts_zero in
  send_w_ts DATALEN env cfg sock addr data ts h
  = if rc <? 0
    then (Returned (-1, ts_zero),
          [e1; EvSyslog LOG_INFO "sendto: %s"
                 (ArgStrerror (env_errno env (h ++ [e1])))])
    else (Returned ((if fst fetched <? 0 then -1 else 0), snd fetched),
          e1 :: EvTstampFetchTx sock (fst fetched) (snd fetched) ::
          (if fst fetched <? 0
           then [EvSyslog LOG_ERR "TX timestamp error" ArgNone]
           else [])).
Proof.
  intros Hk. apply Ascii.eqb_neq in Hk. net_simpl. rewrite Hk. net_simpl.
  rewrite app_nil_r.
  destruct (env_sendto env h sock (firstn DATALEN data) addr <? 0);
    net_simpl; [reflexivity|].
  destruct (env_tstamp_fetch_tx env _ sock ts_zero) as [r t].
  net_simpl. destruct (r <? 0); reflexivity.
Qed.

End Send.

(** C5. In userland mode the first thing [send_w_ts] does is read
    [CLOCK_REALTIME]; the [sendto] comes after it; the timestamp handed
    back is that reading whatever [sendto] answered; and nothing but
    [syslog] follows, so no kernel timestamp takes part: the value is a
    software clock reading. *)
Theorem send_w_ts_userland_timestamp_before_send :
  forall (DATALEN : nat) (env : Env) (cfg : config) (sock : Z)
         (addr : addr_t) (data : list byte) (ts : ts_t) (h : history),
    cfg_ts cfg = "u"%char ->
    exists (t : ts_t) (rv rc : Z) (log : list event),
      t = env_clock_gettime env h CLOCK_REALTIME
      /\ send_w_ts DATALEN env cfg sock addr data ts h
         = (Returned (rv, t),
            EvClockGettime CLOCK_REALTIME t ::
            EvSendto sock (firstn DATALEN data) 0 addr rc :: log)
      /\ forallb is_syslog log = true.
Proof.
  intros DATALEN env cfg sock addr data ts h Hu.
  rewrite (send_w_ts_userland DATALEN env cfg sock addr data ts h Hu).
  cbv zeta. do 4 eexists. split; [reflexivity|]. split; [reflexivity|].
  destruct (_ <? 0); reflexivity.
Qed.

(** A userland send over a working network, and its timestamp. *)
Lemma send_w_ts_userland_timestamp_before_send_run :
  exists (t : ts_t) (rv rc : Z) (log : list event),
    t = Scenario.stamp
    /\ send_w_ts 4 Scenario.env_ok Scenario.userland 3 Scenario.peer
         Scenario.probe (mkTs 7 7) []
       = (Returned (rv, t),
          EvClockGettime CLOCK_REALTIME t ::
          EvSendto 3 (firstn 4 Scenario.probe) 0 Scenario.peer rc :: log)
    /\ forallb is_syslog log = true.
Proof.
  apply (send_w_ts_userland_timestamp_before_send 4 Scenario.env_ok
           Scenario.userland 3 Scenario.peer Scenario.probe (mkTs 7 7) []).
  reflexivity.
Defined.

(** C9. In userland mode, when [sendto] fails, [send_w_ts] returns -1
    and the caller's timestamp holds the clock reading taken before the
    send, whatever it held on entry: it is neither left as it was nor
    left at the zero the function first wrote. *)
Theorem send_w_ts_userland_failed_send_overwrites_ts :
  forall (DATALEN : nat) (env : Env) (cfg : config) (sock : Z)
         (addr : addr_t) (data : list byte) (ts : ts_t) (h : history),
    cfg_ts cfg = "u"%char ->
    existsb is_sendto_failure
      (events (send_w_ts DATALEN env cfg sock addr data ts h)) = true ->
    result (send_w_ts DATALEN env cfg sock addr data ts h)
    = Returned (-1, env_clock_gettime env h CLOCK_REALTIME).
Proof.
  intros DATALEN env cfg sock addr data ts h Hu.
  rewrite (send_w_ts_userland DATALEN env cfg sock addr data ts h Hu).
  cbv zeta. unfold events, result. cbn [fst snd existsb is_sendto_failure].
  destruct (_ <? 0); cbn [existsb is_sendto_failure orb]; intros Hf;
    [reflexivity | discriminate].
Qed.

(** A userland send while the network is down: the timestamp that was
    [7.000000007] on entry comes back as the clock reading. *)
Lemma send_w_ts_userland_failed_send_overwrites_ts_run :
  result (send_w_ts 4 Scenario.env_down Scenario.userland 3 Scenario.peer
            Scenario.probe (mkTs 7 7) [])
  = Returned (-1, Scenario.stamp).
Proof.
  apply (send_w_ts_userland_failed_send_overwrites_ts 4 Scenario.env_down
           Scenario.userland 3 Scenario.peer Scenario.probe (mkTs 7 7) []).
  - reflexivity.
  - reflexivity.
Defined.

(** C1, as the code has it.  In kernel mode, after a [sendto] that did
    not fail, [send_w_ts] fetches the TX timestamp itself, at once,
    with [tstamp_fetch_tx]: when the fetch succeeds it returns 0 with
    the fetched timestamp; when the fetch fails it logs
    "TX timestamp error" and returns -1.  There is no pending state. *)
Theorem send_w_ts_kernel_fetches_tx_timestamp :
  forall (DATALEN : nat) (env : Env) (cfg : config) (sock : Z)
         (addr : addr_t) (data : list byte) (ts : ts_t) (h : history),
    cfg_ts cfg <> "u"%char ->
    existsb is_sendto_failure
      (events (send_w_ts DATALEN env cfg sock addr data ts h)) = false ->
    exists (rc r : Z) (t : ts_t),
      send_w_ts DATALEN env cfg sock addr data ts h
      = (Returned ((if r <? 0 then -1 else 0), t),
         EvSendto sock (firstn DATALEN data) 0 addr rc ::
         EvTstampFetchTx sock r t ::
         (if r <? 0 then [EvSyslog LOG_ERR "TX timestamp error" ArgNone]
          else [])).
Proof.
  intros DATALEN env cfg sock addr data ts h Hk.
  rewrite (send_w_ts_kernel DATALEN env cfg sock addr data ts h Hk).
  cbv zeta. destruct (_ <? 0) eqn:Hrc.
  - unfold events. cbn [snd existsb is_sendto_failure]. rewrite Hrc.
    discriminate.
  - intros _. do 3 eexists. reflexivity.
Qed.

(** A kernel-mode send with the timestamp available. *)
Lemma send_w_ts_kernel_fetches_tx_timestamp_run :
  exists (rc r : Z) (t : ts_t),
    send_w_ts 4 Scenario.env_ok Scenario.kernel 3 Scenario.peer
      Scenario.probe (mkTs 7 7) []
    = (Returned ((if r <? 0 then -1 else 0), t),
       EvSendto 3 (firstn 4 Scenario.probe) 0 Scenario.peer rc ::
       EvTstampFetchTx 3 r t ::
       (if r <? 0 then [EvSyslog LOG_ERR "TX timestamp error" ArgNone]
        else [])).
Proof.
  apply (send_w_ts_kernel_fetches_tx_timestamp 4 Scenario.env_ok
           Scenario.kernel 3 Scenario.peer Scenario.probe (mkTs 7 7) []).
  - discriminate.
  - reflexivity.
Defined.

(** C1 as stated fails: in kernel mode, with a [sendto] that succeeded
    (it took the four bytes), [send_w_ts] returns -1 because the TX
    timestamp could not be fetched. *)
Lemma send_w_ts_kernel_fails_without_tx_timestamp :
  cfg_ts Scenario.kernel <> "u"%char
  /\ send_w_ts 4 Scenario.env_no_ts Scenario.kernel 3 Scenario.peer
       Scenario.probe (mkTs 7 7) []
     = (Returned (-1, ts_zero),
        [EvSendto 3 Scenario.probe 0 Scenario.peer 4;
         EvTstampFetchTx 3 (-1) ts_zero;
         EvSyslog LOG_ERR "TX timestamp error" ArgNone]).
Proof. split; [discriminate | reflexivity]. Qed.

(** ** Timestamp extraction failures on receive *)

(** Split a run of [recv_w_ts] by the answers of the environment. *)
Ltac recv_cases DATALEN env sock flags pkt h :=
  let d := fresh "d" in
  let from := fresh "from" in
  let anc := fresh "anc" in
  let rc := fresh "rc" in
  let t := fresh "t" in
  let Hrecv := fresh "Hrecv" in
  let Hext := fresh "Hext" in
  destruct (env_recvmsg env h sock flags) as [|d from anc] eqn:Hrecv;
  [ rewrite (recv_w_ts_recvmsg_failed DATALEN env sock flags pkt h Hrecv)
  | destruct (env_tstamp_extract env
                (h ++ [EvRecvmsg sock flags (recv_msg DATALEN pkt)
                         (RecvOk d from anc)])
                (filled_msg DATALEN d from anc) (pkt_ts pkt))
      as [rc t] eqn:Hext;
    rewrite (recv_w_ts_delivered DATALEN env sock flags pkt h
               d from anc rc t Hrecv Hext) ];
  unfold events, result;
  cbn [fst snd existsb orb is_extract_failure is_recvmsg_failure is_syslog].

(** C8. [recv_w_ts] treats a failed timestamp extraction differently on
    its two paths.  With [MSG_ERRQUEUE] set, a failed extraction makes
    it return -1, which is also what it returns when [recvmsg] itself
    failed, and in neither case does it log anything.  Without
    [MSG_ERRQUEUE], a failed extraction still returns 0. *)
Theorem recv_w_ts_extract_failure_asymmetric :
  forall (DATALEN : nat) (env : Env) (sock flags : Z) (pkt : pkt_t)
         (h : history),
    (Z.land flags MSG_ERRQUEUE <> 0 ->
     existsb is_extract_failure
       (events (recv_w_ts DATALEN env sock flags pkt h)) = true
     \/ existsb is_recvmsg_failure
          (events (recv_w_ts DATALEN env sock flags pkt h)) = true ->
     (exists pkt',
        result (recv_w_ts DATALEN env sock flags pkt h)
        = Returned (-1, pkt'))
     /\ existsb is_syslog
          (events (recv_w_ts DATALEN env sock flags pkt h)) = false)
    /\ (Z.land flags MSG_ERRQUEUE = 0 ->
        existsb is_extract_failure
          (events (recv_w_ts DATALEN env sock flags pkt h)) = true ->
        exists pkt',
          result (recv_w_ts DATALEN env sock flags pkt h)
          = Returned (0, pkt')).
Proof.
  intros DATALEN env sock flags pkt h. split.
  - intros Hq. apply Z.eqb_neq in Hq.
    recv_cases DATALEN env sock flags pkt h; rewrite Hq.
    + intros _. split; [eexists; reflexivity | reflexivity].
    + cbn [existsb orb is_extract_failure is_recvmsg_failure is_syslog].
      rewrite !orb_false_r. intros [Hf | Hf]; [|discriminate].
      rewrite Hf. split; [eexists; reflexivity | reflexivity].
  - intros Hq. apply Z.eqb_eq in Hq.
    recv_cases DATALEN env sock flags pkt h; rewrite Hq.
    + cbn [existsb orb is_extract_failure]. discriminate.
    + intros _. eexists; reflexivity.
Qed.

(** The three cases: an error-queue poll with no timestamp in the
    ancillary data, an error-queue poll with nothing to receive, and a
    data receive with no timestamp in the ancillary data. *)
Lemma recv_w_ts_extract_failure_asymmetric_run :
  ((exists pkt',
      result (recv_w_ts 4 Scenario.env_no_ts 3 MSG_ERRQUEUE
                Scenario.blank_pkt [])
      = Returned (-1, pkt'))
   /\ existsb is_syslog
        (events (recv_w_ts 4 Scenario.env_no_ts 3 MSG_ERRQUEUE
                   Scenario.blank_pkt [])) = false)
  /\ ((exists pkt',
         result (recv_w_ts 4 Scenario.env_down 3 MSG_ERRQUEUE
                   Scenario.blank_pkt [])
         = Returned (-1, pkt'))
      /\ existsb is_syslog
           (events (recv_w_ts 4 Scenario.env_down 3 MSG_ERRQUEUE
                      Scenario.blank_pkt [])) = false)
  /\ (exists pkt',
        result (recv_w_ts 4 Scenario.env_no_ts 3 0 Scenario.blank_pkt [])
        = Returned (0, pkt')).
Proof.
  split; [|split].
  - apply (proj1 (recv_w_ts_extract_failure_asymmetric 4 Scenario.env_no_ts
                    3 MSG_ERRQUEUE Scenario.blank_pkt [])).
    + discriminate.
    + left. reflexivity.
  - apply (proj1 (recv_w_ts_extract_failure_asymmetric 4 Scenario.env_down
                    3 MSG_ERRQUEUE Scenario.blank_pkt [])).
    + discriminate.
    + right. reflexivity.
  - apply (proj2 (recv_w_ts_extract_failure_asymmetric 4 Scenario.env_no_ts
                    3 0 Scenario.blank_pkt [])).
    + reflexivity.
    + reflexivity.
Defined.

(** C2, as the code has it.  On an ordinary data receive in which
    [recvmsg] delivered a datagram and the timestamp extraction failed,
    [recv_w_ts] returns 0; the packet carries the delivered payload and
    the sender's address; its timestamp is whatever [tstamp_extract]
    left there, with no marking added; and the failure shows only as
    the [syslog] message that ends the run. *)
Theorem recv_w_ts_rx_extract_failure_keeps_packet :
  forall (DATALEN : nat) (env : Env) (sock flags : Z) (pkt : pkt_t)
         (h : history) (d : list byte) (from : addr_t) (anc : list byte),
    Z.land flags MSG_ERRQUEUE = 0 ->
    env_recvmsg env h sock flags = RecvOk d from anc ->
    existsb is_extract_failure
      (events (recv_w_ts DATALEN env sock flags pkt h)) = true ->
    exists (pkt' : pkt_t) (m : msghdr) (rc : Z) (t : ts_t),
      recv_w_ts DATALEN env sock flags pkt h
      = (Returned (0, pkt'),
         [EvRecvmsg sock flags (recv_msg DATALEN pkt) (RecvOk d from anc);
          EvTstampExtract m rc t;
          EvSyslog LOG_ERR "RX timestamp error" ArgNone])
      /\ payload DATALEN pkt' = padded DATALEN d
      /\ pkt_addr pkt' = from
      /\ pkt_ts pkt' = t.
Proof.
  intros DATALEN env sock flags pkt h d from anc Hq Hrecv.
  apply Z.eqb_eq in Hq.
  destruct (env_tstamp_extract env
              (h ++ [EvRecvmsg sock flags (recv_msg DATALEN pkt)
                       (RecvOk d from anc)])
              (filled_msg DATALEN d from anc) (pkt_ts pkt))
    as [rc t] eqn:Hext.
  rewrite (recv_w_ts_delivered DATALEN env sock flags pkt h
             d from anc rc t Hrecv Hext), Hq.
  unfold events. cbn [snd existsb orb is_extract_failure].
  destruct (rc <? 0) eqn:Hrc;
    cbn [existsb orb is_extract_failure]; [intros _ | discriminate].
  do 4 eexists. split; [reflexivity|].
  split; [apply payload_delivered|]. split; reflexivity.
Qed.

(** A data receive with no timestamp in the ancillary data. *)
Lemma recv_w_ts_rx_extract_failure_keeps_packet_run :
  exists (pkt' : pkt_t) (m : msghdr) (rc : Z) (t : ts_t),
    recv_w_ts 4 Scenario.env_no_ts 3 0 Scenario.stale_pkt []
    = (Returned (0, pkt'),
       [EvRecvmsg 3 0 (recv_msg 4 Scenario.stale_pkt)
          (RecvOk Scenario.probe Scenario.peer []);
        EvTstampExtract m rc t;
        EvSyslog LOG_ERR "RX timestamp error" ArgNone])
    /\ payload 4 pkt' = padded 4 Scenario.probe
    /\ pkt_addr pkt' = Scenario.peer
    /\ pkt_ts pkt' = t.
Proof.
  apply (recv_w_ts_rx_extract_failure_keeps_packet 4 Scenario.env_no_ts 3 0
           Scenario.stale_pkt [] Scenario.probe Scenario.peer []).
  - reflexivity.
  - reflexivity.
  - reflexivity.
Defined.

(** C2 as stated fails: the timestamp of the packet is not marked.  One
    data receive in which the extraction failed and one in which it
    succeeded return the same value and the same packet, timestamp
    included. *)
Lemma recv_w_ts_rx_extract_failure_not_marked :
  existsb is_extract_failure
    (events (recv_w_ts 4 Scenario.env_no_ts 3 0 Scenario.stale_pkt [])) = true
  /\ existsb is_extract_failure
       (events (recv_w_ts 4 Scenario.env_ok 3 0 Scenario.stale_pkt [])) = false
  /\ result (recv_w_ts 4 Scenario.env_no_ts 3 0 Scenario.stale_pkt [])
     = Returned (0, mkPkt Scenario.peer Scenario.probe Scenario.stamp)
  /\ result (recv_w_ts 4 Scenario.env_ok 3 0 Scenario.stale_pkt [])
     = Returned (0, mkPkt Scenario.peer Scenario.probe Scenario.stamp).
Proof. repeat split. Qed.

(** C3, as the code has it.  A timestamp that could not be obtained is
    reported through the return value on two of the three paths: a
    failed [tstamp_fetch_tx] makes [send_w_ts] log "TX timestamp error"
    and return -1, and a failed extraction on an error-queue receive
    makes [recv_w_ts] return -1.  On an ordinary receive the failure is
    only logged: [recv_w_ts] returns 0 and the timestamp of the packet
    is what [tstamp_extract] left there. *)
Theorem timestamp_failure_reporting :
  forall (DATALEN : nat) (env : Env) (cfg : config) (sock flags : Z)
         (addr : addr_t) (data : list byte) (ts : ts_t) (pkt : pkt_t)
         (h : history),
    (existsb is_fetch_tx_failure
       (events (send_w_ts DATALEN env cfg sock addr data ts h)) = true ->
     exists (t : ts_t) (pre : list event),
       send_w_ts DATALEN env cfg sock addr data ts h
       = (Returned (-1, t),
          pre ++ [EvSyslog LOG_ERR "TX timestamp error" ArgNone]))
    /\ (existsb is_extract_failure
          (events (recv_w_ts DATALEN env sock flags pkt h)) = true ->
        Z.land flags MSG_ERRQUEUE <> 0 ->
        exists pkt',
          result (recv_w_ts DATALEN env sock flags pkt h)
          = Returned (-1, pkt'))
    /\ (existsb is_extract_failure
          (events (recv_w_ts DATALEN env sock flags pkt h)) = true ->
        Z.land flags MSG_ERRQUEUE = 0 ->
        exists (pkt' : pkt_t) (e : event) (m : msghdr) (rc : Z) (t : ts_t),
          recv_w_ts DATALEN env sock flags pkt h
          = (Returned (0, pkt'),
             [e; EvTstampExtract m rc t;
              EvSyslog LOG_ERR "RX timestamp error" ArgNone])
          /\ pkt_ts pkt' = t).
Proof.
  intros DATALEN env cfg sock flags addr data ts pkt h.
  split; [|split].
  - destruct (Ascii.eqb_spec (cfg_ts cfg) "u"%char) as [Hu | Hk].
    + rewrite (send_w_ts_userland DATALEN env cfg sock addr data ts h Hu).
      cbv zeta. unfold events. cbn [snd existsb orb is_fetch_tx_failure].
      destruct (_ <? 0); cbn [existsb orb is_fetch_tx_failure]; discriminate.
    + rewrite (send_w_ts_kernel DATALEN env cfg sock addr data ts h Hk).
      cbv zeta. unfold events.
      destruct (_ <? 0); cbn [snd existsb orb is_fetch_tx_failure];
        [discriminate|].
      destruct (env_tstamp_fetch_tx env _ sock ts_zero) as [r t].
      cbn [fst snd]. destruct (r <? 0);
        cbn [existsb orb is_fetch_tx_failure]; [intros _ | discriminate].
      exists t. eexists [_; _]. reflexivity.
  - intros Hf Hq. apply Z.eqb_neq in Hq. revert Hf.
    recv_cases DATALEN env sock flags pkt h; rewrite Hq.
    + intros _. eexists; reflexivity.
    + cbn [existsb orb is_extract_failure]. rewrite orb_false_r.
      intros ->. eexists; reflexivity.
  - intros Hf Hq. apply Z.eqb_eq in Hq. revert Hf.
    recv_cases DATALEN env sock flags pkt h; rewrite Hq.
    + cbn [existsb orb is_extract_failure]. discriminate.
    + destruct (rc <? 0); cbn [existsb orb is_extract_failure];
        [intros _ | discriminate].
      do 5 eexists. split; reflexivity.
Qed.

(** The three paths with no timestamp to be had. *)
Lemma timestamp_failure_reporting_run :
  (exists (t : ts_t) (pre : list event),
     send_w_ts 4 Scenario.env_no_ts Scenario.kernel 3 Scenario.peer
       Scenario.probe (mkTs 7 7) []
     = (Returned (-1, t),
        pre ++ [EvSyslog LOG_ERR "TX timestamp error" ArgNone]))
  /\ (exists pkt',
        result (recv_w_ts 4 Scenario.env_no_ts 3 MSG_ERRQUEUE
                  Scenario.blank_pkt [])
        = Returned (-1, pkt'))
  /\ (exists (pkt' : pkt_t) (e : event) (m : msghdr) (rc : Z) (t : ts_t),
        recv_w_ts 4 Scenario.env_no_ts 3 0 Scenario.blank_pkt []
        = (Returned (0, pkt'),
           [e; EvTstampExtract m rc t;
            EvSyslog LOG_ERR "RX timestamp error" ArgNone])
        /\ pkt_ts pkt' = t).
Proof.
  split; [|split].
  - apply (proj1 (timestamp_failure_reporting 4 Scenario.env_no_ts
                    Scenario.kernel 3 0 Scenario.peer Scenario.probe
                    (mkTs 7 7) Scenario.blank_pkt [])).
    reflexivity.
  - apply (proj1 (proj2 (timestamp_failure_reporting 4 Scenario.env_no_ts
                    Scenario.kernel 3 MSG_ERRQUEUE Scenario.peer
                    Scenario.probe (mkTs 7 7) Scenario.blank_pkt []))).
    + reflexivity.
    + discriminate.
  - apply (proj2 (proj2 (timestamp_failure_reporting 4 Scenario.env_no_ts
                    Scenario.kernel 3 0 Scenario.peer Scenario.probe
                    (mkTs 7 7) Scenario.blank_pkt []))).
    + reflexivity.
    + reflexivity.
Defined.

(** C3 as stated fails: on a data receive into a packet whose timestamp
    was zero, with no timestamp in the ancillary data, [recv_w_ts]
    reports success and hands back the packet with the all-zero
    timestamp, nothing in the result telling it from a measured one. *)
Lemma recv_w_ts_leaves_zero_timestamp_on_success :
  existsb is_extract_failure
    (events (recv_w_ts 4 Scenario.env_no_ts 3 0 Scenario.blank_pkt [])) = true
  /\ result (recv_w_ts 4 Scenario.env_no_ts 3 0 Scenario.blank_pkt [])
     = Returned (0, mkPkt Scenario.peer Scenario.probe ts_zero).
Proof. split; reflexivity. Qed.

(** ** Payload round trip *)

(** C6. A buffer of exactly [DATALEN] bytes, sent with [send_w_ts] and
    handed to the network, is the payload of the packet that an
    ordinary [recv_w_ts] returns on the peer to which the network
    delivers that datagram. *)
Theorem send_then_receive_preserves_payload :
  forall (DATALEN : nat)
         (envA : Env) (cfg : config) (sockA : Z) (dst : addr_t)
         (data : list byte) (ts : ts_t) (hA : history)
         (envB : Env) (sockB flags : Z) (pkt : pkt_t) (hB : history)
         (wire : list byte) (from : addr_t) (anc : list byte),
    List.length data = DATALEN ->
    transmitted (events (send_w_ts DATALEN envA cfg sockA dst data ts hA))
    = Some wire ->
    Z.land flags MSG_ERRQUEUE = 0 ->
    env_recvmsg envB hB sockB flags = RecvOk wire from anc ->
    exists pkt',
      result (recv_w_ts DATALEN envB sockB flags pkt hB) = Returned (0, pkt')
      /\ payload DATALEN pkt' = data.
Proof.
  intros DATALEN envA cfg sockA dst data ts hA envB sockB flags pkt hB
         wire from anc Hlen Hwire Hq Hrecv.
  assert (Hdata : firstn DATALEN data = data)
    by (apply firstn_all2; lia).
  assert (Hw : wire = data).
  { revert Hwire.
    destruct (Ascii.eqb_spec (cfg_ts cfg) "u"%char) as [Hu | Hk].
    - rewrite (send_w_ts_userland DATALEN envA cfg sockA dst data ts hA Hu).
      cbv zeta. unfold events. cbn [snd transmitted].
      destruct (_ <? 0); cbn [transmitted]; [discriminate|].
      rewrite Hdata. congruence.
    - rewrite (send_w_ts_kernel DATALEN envA cfg sockA dst data ts hA Hk).
      cbv zeta. unfold events.
      destruct (_ <? 0) eqn:Hrc; cbn [snd transmitted]; rewrite Hrc;
        cbn [transmitted]; [discriminate|].
      rewrite Hdata. congruence. }
  subst wire. apply Z.eqb_eq in Hq.
  destruct (env_tstamp_extract envB
              (hB ++ [EvRecvmsg sockB flags (recv_msg DATALEN pkt)
                        (RecvOk data from anc)])
              (filled_msg DATALEN data from anc) (pkt_ts pkt))
    as [rc t] eqn:Hext.
  rewrite (recv_w_ts_delivered DATALEN envB sockB flags pkt hB
             data from anc rc t Hrecv Hext), Hq.
  unfold result. cbn [fst]. eexists. split; [reflexivity|].
  rewrite payload_delivered. unfold padded.
  rewrite Hdata, Hlen, Nat.sub_diag. apply app_nil_r.
Qed.

(** Four bytes sent in kernel mode and received by a peer. *)
Lemma send_then_receive_preserves_payload_run :
  exists pkt',
    result (recv_w_ts 4 Scenario.env_ok 5 0 Scenario.blank_pkt [])
    = Returned (0, pkt')
    /\ payload 4 pkt' = Scenario.probe.
Proof.
  apply (send_then_receive_preserves_payload 4
           Scenario.env_ok Scenario.kernel 3 Scenario.peer Scenario.probe
           (mkTs 7 7) []
           Scenario.env_ok 5 0 Scenario.blank_pkt []
           Scenario.probe Scenario.peer []).
  - reflexivity.
  - reflexivity.
  - reflexivity.
  - reflexivity.
Defined.

(** ** The binder *)

Section WeakestPre.

Context {A B : Type}.

Lemma wp_ret (a : A) h (Q : outcome A -> list event -> Prop) :
Q (Returned a) [] -> wp (ret a) h Q.
Proof. exact (fun H => H). Qed.

Lemma wp_bind (m : M A) (k : A -> M B) h Q :
wp m h (fun o e1 =>
          match o with
          | Returned a => wp (k a) (h ++ e1) (fun o2 e2 => Q o2 (e1 ++ e2))
          | Exited s => Q (Exited s) e1
          end) ->
wp (mbind m k) h Q.
Proof.
unfold wp, mbind, result, events.
destruct (m h) as [[a|s] e1]; cbn [fst snd]; auto.
destruct (k a (h ++ e1)); auto.
Qed.

Lemma wp_if (b : bool) (m1 m2 : M A) h Q :
(b = true -> wp m1 h Q) -> (b = false -> wp m2 h Q) ->
wp (if b then m1 else m2) h Q.
Proof. destruct b; auto. Qed.

Lemma wp_exit s h (Q : outcome A -> list event -> Prop) :
Q (Exited s) [EvExit s] -> wp (exit s) h Q.
Proof. exact (fun H => H). Qed.

End WeakestPre.

Section WeakestPreCalls.

Variable env : Env.

Lemma wp_socket d t p h Q :
(forall fd, Q (Returned fd) [EvSocket d t p fd]) ->
wp (socket env d t p) h Q.
Proof. intros H. apply H. Qed.

Lemma wp_setsockopt fd l o v h Q :
(forall rc, Q (Returned rc) [EvSetsockopt fd l o v rc]) ->
wp (setsockopt env fd l o v) h Q.
Proof. intros H. apply H. Qed.

Lemma wp_bind_call fd a h Q :
(forall rc, Q (Returned rc) [EvBind fd a rc]) -> wp (bind env fd a) h Q.
Proof. intros H. apply H. Qed.

Lemma wp_listen fd n h Q :
(forall rc, Q (Returned rc) [EvListen fd n rc]) -> wp (listen env fd n) h Q.
Proof. intros H. apply H. Qed.

Lemma wp_syslog p f a h Q :
Q (Returned tt) [EvSyslog p f a] -> wp (syslog p f a) h Q.
Proof. exact (fun H => H). Qed.

Lemma wp_strerror_errno h Q :
(forall errno, Q (Returned (ArgStrerror errno)) []) ->
wp (strerror_errno env) h Q.
Proof. intros H. apply H. Qed.

End WeakestPreCalls.

(** One step of the binder. *)
Ltac wp_step :=
  lazymatch goal with
  | |- wp (mbind _ _) _ _ => apply wp_bind
  | |- wp (ret _) _ _ => apply wp_ret
  | |- wp (if _ then _ else _) _ _ => apply wp_if; intros ?
  | |- wp (exit _) _ _ => apply wp_exit
  | |- wp (die _ _) _ _ => unfold die
  | |- wp (warn _ _) _ _ => unfold warn
  | |- wp (socket _ _ _ _) _ _ => apply wp_socket; intros ?
  | |- wp (setsockopt _ _ _ _ _) _ _ => apply wp_setsockopt; intros ?
  | |- wp (bind _ _ _) _ _ => apply wp_bind_call; intros ?
  | |- wp (listen _ _ _) _ _ => apply wp_listen; intros ?
  | |- wp (syslog _ _ _) _ _ => apply wp_syslog
  | |- wp (strerror_errno _) _ _ => apply wp_strerror_errno; intros ?
  end; cbv beta iota; cbn [app].

Ltac wp_run := unfold bind_or_die; cbv zeta; repeat wp_step.

(** All but the last three elements of a list given in full. *)
Ltac but_last3 l :=
  match l with
  | [_; _; _] => constr:(@nil event)
  | ?x :: ?r => let p := but_last3 r in constr:(x :: p)
  end.

Lemma nil_eq_app_cons {A} (pre : list A) (x : A) (post : list A) :
  [] = pre ++ x :: post -> False.
Proof. destruct pre; discriminate. Qed.

Lemma cons_eq_app_cons {A} (y : A) (l pre : list A) (x : A) (post : list A) :
  y :: l = pre ++ x :: post ->
  (pre = [] /\ y = x /\ l = post)
  \/ (exists pre', pre = y :: pre' /\ l = pre' ++ x :: post).
Proof.
  destruct pre as [|z pre']; cbn [app]; intros H; injection H as -> ->.
  - left. auto.
  - right. exists pre'. auto.
Qed.

(** Every place of an event in a list given in full. *)
Ltac split_at H k :=
  lazymatch type of H with
  | [] = _ ++ _ :: _ => exfalso; exact (nil_eq_app_cons _ _ _ H)
  | _ :: _ = _ ++ _ :: _ =>
      let Hx := fresh "Hx" in
      let pre' := fresh "pre" in
      apply cons_eq_app_cons in H;
      destruct H as [(-> & Hx & <-) | (pre' & -> & H)];
      [ k Hx | split_at H k ]
  end.

(** The binder exits only with [EXIT_FAILURE], and only right after a
    failed [socket], [bind] or [listen] and the message about it. *)
Lemma bind_or_die_exit_cause (env : Env) (my : addr_t) (port : Z)
    (h : history) (status : Z) :
  result (bind_or_die env my port h) = Exited status ->
  status = EXIT_FAILURE
  /\ exists (e : event) (fmt : string) (errno : Z) (pre : list event),
       events (bind_or_die env my port h)
       = pre ++ [e; EvSyslog LOG_ERR fmt (ArgStrerror errno);
                 EvExit EXIT_FAILURE]
       /\ is_acquisition_failure e = true.
Proof.
  change (wp (bind_or_die env my port) h
            (fun o evs =>
               o = Exited status ->
               status = EXIT_FAILURE
               /\ exists (e : event) (fmt : string) (errno : Z)
                         (pre : list event),
                    evs = pre ++ [e; EvSyslog LOG_ERR fmt (ArgStrerror errno);
                                  EvExit EXIT_FAILURE]
                    /\ is_acquisition_failure e = true)).
  wp_run; try discriminate.
  all: intros Hs; injection Hs as <-; split; [reflexivity|].
  all: do 3 eexists.
  all: match goal with
       | |- exists pre : list event, ?l = _ /\ _ =>
           let p := but_last3 l in exists p
       end.
  all: split; [reflexivity | cbn [is_acquisition_failure]; assumption].
Qed.

(** A failed [socket], [bind] or [listen] makes the binder exit. *)
Lemma bind_or_die_failure_exits (env : Env) (my : addr_t) (port : Z)
    (h : history) :
  existsb is_acquisition_failure (events (bind_or_die env my port h)) = true ->
  result (bind_or_die env my port h) = Exited EXIT_FAILURE.
Proof.
  change (wp (bind_or_die env my port) h
            (fun o evs =>
               existsb is_acquisition_failure evs = true ->
               o = Exited EXIT_FAILURE)).
  wp_run; try reflexivity.
  all: cbn [existsb is_acquisition_failure orb].
  all: repeat match goal with H : _ = false |- _ => rewrite H; clear H end.
  all: cbn [orb]; discriminate.
Qed.

(** [recv_w_ts] returns, with -1 when [recvmsg] failed, and does not
    exit. *)
Lemma recv_w_ts_returns (DATALEN : nat) (env : Env) (sock flags : Z)
    (pkt : pkt_t) (h : history) :
  (exists (rc : Z) (pkt' : pkt_t),
     result (recv_w_ts DATALEN env sock flags pkt h) = Returned (rc, pkt')
     /\ (existsb is_recvmsg_failure
           (events (recv_w_ts DATALEN env sock flags pkt h)) = true ->
         rc = -1))
  /\ existsb is_exit (events (recv_w_ts DATALEN env sock flags pkt h)) = false.
Proof.
  recv_cases DATALEN env sock flags pkt h.
  - split; [do 2 eexists; split; [reflexivity | reflexivity]|].
    destruct (_ =? 0); reflexivity.
  - split.
    + do 2 eexists. split; [reflexivity|].
      cbn [existsb orb is_recvmsg_failure].
      destruct (_ =? 0); [destruct (rc <? 0)|]; discriminate.
    + cbn [existsb orb is_exit].
      destruct (_ =? 0); [destruct (rc <? 0)|]; reflexivity.
Qed.

(** [send_w_ts] returns, with -1 when [sendto] or the fetch of the
    kernel timestamp failed, and does not exit. *)
Lemma send_w_ts_returns (DATALEN : nat) (env : Env) (cfg : config)
    (sock : Z) (addr : addr_t) (data : list byte) (ts : ts_t) (h : history) :
  (exists (rc : Z) (t : ts_t),
     result (send_w_ts DATALEN env cfg sock addr data ts h) = Returned (rc, t)
     /\ (existsb is_sendto_failure
           (events (send_w_ts DATALEN env cfg sock addr data ts h)) = true
         \/ existsb is_fetch_tx_failure
              (events (send_w_ts DATALEN env cfg sock addr data ts h)) = true ->
         rc = -1))
  /\ existsb is_exit
       (events (send_w_ts DATALEN env cfg sock addr data ts h)) = false.
Proof.
  destruct (Ascii.eqb_spec (cfg_ts cfg) "u"%char) as [Hu | Hk].
  - rewrite (send_w_ts_userland DATALEN env cfg sock addr data ts h Hu).
    cbv zeta. unfold result, events. cbn [fst snd].
    destruct (_ <? 0) eqn:Hrc;
      cbn [existsb orb is_sendto_failure is_fetch_tx_failure is_exit];
      rewrite ?Hrc; cbn [orb];
      (split; [do 2 eexists; split; [reflexivity|] | reflexivity]).
    + reflexivity.
    + intros [Hf | Hf]; discriminate.
  - rewrite (send_w_ts_kernel DATALEN env cfg sock addr data ts h Hk).
    cbv zeta. unfold result, events.
    destruct (_ <? 0) eqn:Hrc; cbn [fst snd];
      cbn [existsb orb is_sendto_failure is_fetch_tx_failure is_exit];
      rewrite ?Hrc; cbn [orb].
    + split; [do 2 eexists; split; reflexivity | reflexivity].
    + destruct (env_tstamp_fetch_tx env _ sock ts_zero) as [r t].
      cbn [fst snd]. destruct (r <? 0) eqn:Hr;
        cbn [existsb orb is_sendto_failure is_fetch_tx_failure is_exit];
        rewrite ?Hr; cbn [orb];
        (split; [do 2 eexists; split; [reflexivity|] | reflexivity]).
      * reflexivity.
      * intros [Hf | Hf]; discriminate.
Qed.

(** C4. The transceiver functions always return to their caller: a
    failed [recvmsg], [sendto] or timestamp fetch gives the return
    value -1, and neither function exits.  The binder is the only one
    that exits: when it does, the status is [EXIT_FAILURE] and what
    went before is a failed [socket], [bind] or [listen]; and each such
    failure does make it exit. *)
Theorem only_binder_failures_exit :
  forall (DATALEN : nat) (env : Env) (cfg : config) (sock flags : Z)
         (addr : addr_t) (data : list byte) (ts : ts_t) (pkt : pkt_t)
         (my : addr_t) (port : Z) (h : history),
    ((exists (rc : Z) (pkt' : pkt_t),
        result (recv_w_ts DATALEN env sock flags pkt h) = Returned (rc, pkt')
        /\ (existsb is_recvmsg_failure
              (events (recv_w_ts DATALEN env sock flags pkt h)) = true ->
            rc = -1))
     /\ existsb is_exit
          (events (recv_w_ts DATALEN env sock flags pkt h)) = false)
    /\ ((exists (rc : Z) (t : ts_t),
           result (send_w_ts DATALEN env cfg sock addr data ts h)
           = Returned (rc, t)
           /\ (existsb is_sendto_failure
                 (events (send_w_ts DATALEN env cfg sock addr data ts h))
               = true
               \/ existsb is_fetch_tx_failure
                    (events (send_w_ts DATALEN env cfg sock addr data ts h))
                  = true ->
               rc = -1))
        /\ existsb is_exit
             (events (send_w_ts DATALEN env cfg sock addr data ts h)) = false)
    /\ (forall status : Z,
          result (bind_or_die env my port h) = Exited status ->
          status = EXIT_FAILURE
          /\ exists (e : event) (fmt : string) (errno : Z) (pre : list event),
               events (bind_or_die env my port h)
               = pre ++ [e; EvSyslog LOG_ERR fmt (ArgStrerror errno);
                         EvExit EXIT_FAILURE]
               /\ is_acquisition_failure e = true)
    /\ (existsb is_acquisition_failure
          (events (bind_or_die env my port h)) = true ->
        result (bind_or_die env my port h) = Exited EXIT_FAILURE).
Proof.
  intros DATALEN env cfg sock flags addr data ts pkt my port h.
  split; [apply recv_w_ts_returns|].
  split; [apply send_w_ts_returns|].
  split; [intros status; apply bind_or_die_exit_cause|].
  apply bind_or_die_failure_exits.
Qed.

(** With the network down both transceiver functions return -1; with
    the port taken the binder exits after the failed [bind]. *)
Lemma only_binder_failures_exit_run :
  (exists (rc : Z) (pkt' : pkt_t),
     result (recv_w_ts 4 Scenario.env_down 3 0 Scenario.blank_pkt [])
     = Returned (rc, pkt')
     /\ rc = -1)
  /\ (exists (rc : Z) (t : ts_t),
        result (send_w_ts 4 Scenario.env_down Scenario.kernel 3 Scenario.peer
                  Scenario.probe (mkTs 7 7) [])
        = Returned (rc, t)
        /\ rc = -1)
  /\ result (bind_or_die Scenario.env_port_taken Scenario.peer 60666 [])
     = Exited EXIT_FAILURE.
Proof.
  pose proof (only_binder_failures_exit 4 Scenario.env_down Scenario.kernel
                3 0 Scenario.peer Scenario.probe (mkTs 7 7)
                Scenario.blank_pkt Scenario.peer 60666 [])
    as [[(rc & pkt' & Hr & Hrc) _] [[(rc' & t & Hs & Hrc') _] _]].
  pose proof (only_binder_failures_exit 4 Scenario.env_port_taken
                Scenario.kernel 3 0 Scenario.peer Scenario.probe (mkTs 7 7)
                Scenario.blank_pkt Scenario.peer 60666 [])
    as [_ [_ [_ Hb]]].
  split; [|split].
  - exists rc, pkt'. split; [exact Hr | apply Hrc; reflexivity].
  - exists rc', t. split; [exact Hs | apply Hrc'; left; reflexivity].
  - apply Hb. reflexivity.
Defined.

(** C7. Whenever a [setsockopt] that clears [IPV6_V6ONLY] fails in the
    binder, on either socket, what follows is the message about it
    and then, with no exit in between, the [bind] of that socket. *)
Theorem bind_or_die_v6only_failure_is_not_fatal :
  forall (env : Env) (my : addr_t) (port : Z) (h : history)
         (pre : list event) (fd rc : Z) (post : list event),
    events (bind_or_die env my port h)
    = pre ++ EvSetsockopt fd IPPROTO_IPV6 IPV6_V6ONLY 0 rc :: post ->
    rc < 0 ->
    exists (errno : Z) (mid : list event) (rcb : Z) (rest : list event),
      post = EvSyslog LOG_ERR "setsockopt: IPV6_V6ONLY: %s"
               (ArgStrerror errno)
             :: mid ++ EvBind fd (bound_addr my port) rcb :: rest
      /\ existsb is_exit mid = false.
Proof.
  intros env my port h.
  change (wp (bind_or_die env my port) h
            (fun _ evs =>
               forall (pre : list event) (fd rc : Z) (post : list event),
                 evs = pre ++ EvSetsockopt fd IPPROTO_IPV6 IPV6_V6ONLY 0 rc
                              :: post ->
                 rc < 0 ->
                 exists (errno : Z) (mid : list event) (rcb : Z)
                        (rest : list event),
                   post = EvSyslog LOG_ERR "setsockopt: IPV6_V6ONLY: %s"
                            (ArgStrerror errno)
                          :: mid ++ EvBind fd (bound_addr my port) rcb :: rest
                   /\ existsb is_exit mid = false)).
  unfold bound_addr. wp_run.
  all: intros pre sk res post Hev Hneg.
  all: split_at Hev ltac:(fun Hx =>
         first
           [ discriminate Hx
           | exfalso; cbv in Hx; discriminate Hx
           | inversion Hx; subst;
             first
               [ exfalso;
                 match goal with
                 | Hb : (?x <? 0) = false, Hn : ?x < 0 |- _ =>
                     apply Z.ltb_ge in Hb; lia
                 end
               | eexists; exists []; do 2 eexists; split; reflexivity
               | eexists; eexists [_]; do 2 eexists; split; reflexivity
               | eexists; eexists [_; _]; do 2 eexists; split; reflexivity ] ]).
Qed.

(** No socket option can be set: both sockets are bound all the same. *)
Lemma bind_or_die_v6only_failure_is_not_fatal_run :
  (exists (errno : Z) (mid : list event) (rcb : Z) (rest : list event),
     skipn 3 (events (bind_or_die Scenario.env_no_sockopt Scenario.peer
                        60666 []))
     = EvSyslog LOG_ERR "setsockopt: IPV6_V6ONLY: %s" (ArgStrerror errno)
       :: mid ++ EvBind 4 (bound_addr Scenario.peer 60666) rcb :: rest
     /\ existsb is_exit mid = false)
  /\ (exists (errno : Z) (mid : list event) (rcb : Z) (rest : list event),
        skipn 7 (events (bind_or_die Scenario.env_no_sockopt Scenario.peer
                           60666 []))
        = EvSyslog LOG_ERR "setsockopt: IPV6_V6ONLY: %s" (ArgStrerror errno)
          :: mid ++ EvBind 8 (bound_addr Scenario.peer 60666) rcb :: rest
        /\ existsb is_exit mid = false).
Proof.
  split.
  - apply (bind_or_die_v6only_failure_is_not_fatal Scenario.env_no_sockopt
             Scenario.peer 60666 []
             (firstn 2 (events (bind_or_die Scenario.env_no_sockopt
                                  Scenario.peer 60666 [])))
             4 (-1)).
    + reflexivity.
    + lia.
  - apply (bind_or_die_v6only_failure_is_not_fatal Scenario.env_no_sockopt
             Scenario.peer 60666 []
             (firstn 6 (events (bind_or_die Scenario.env_no_sockopt
                                  Scenario.peer 60666 [])))
             8 (-1)).
    + reflexivity.
    + lia.
Defined.

(** ** Further properties *)

(** X1. When [recvmsg] fails, [recv_w_ts] returns -1 with the payload
    buffer cleared and the address and timestamp of the packet as they
    were; it logs "recvmsg: %s" at [LOG_INFO] exactly when
    [MSG_ERRQUEUE] is not set, and never calls [tstamp_extract]. *)
Theorem recv_w_ts_transport_failure :
  forall (DATALEN : nat) (env : Env) (sock flags : Z) (pkt : pkt_t)
         (h : history),
    env_recvmsg env h sock flags = RecvErr ->
    exists log : list event,
      recv_w_ts DATALEN env sock flags pkt h
      = (Returned (-1, mkPkt (pkt_addr pkt)
                             (memset (pkt_data pkt) x00 DATALEN)
                             (pkt_ts pkt)),
         EvRecvmsg sock flags (recv_msg DATALEN pkt) RecvErr :: log)
      /\ (Z.land flags MSG_ERRQUEUE = 0 ->
          exists errno,
            log = [EvSyslog LOG_INFO "recvmsg: %s" (ArgStrerror errno)])
      /\ (Z.land flags MSG_ERRQUEUE <> 0 -> log = []).
Proof.
  intros DATALEN env sock flags pkt h Hrecv.
  rewrite (recv_w_ts_recvmsg_failed DATALEN env sock flags pkt h Hrecv).
  eexists. split; [reflexivity|]. split; intros Hq.
  - apply Z.eqb_eq in Hq. rewrite Hq. eexists. reflexivity.
  - apply Z.eqb_neq in Hq. rewrite Hq. reflexivity.
Qed.

(** A data receive while the network is down. *)
Lemma recv_w_ts_transport_failure_run :
  exists log : list event,
    recv_w_ts 4 Scenario.env_down 3 0 Scenario.stale_pkt []
    = (Returned (-1, mkPkt (pkt_addr Scenario.stale_pkt)
                           (memset (pkt_data Scenario.stale_pkt) x00 4)
                           (pkt_ts Scenario.stale_pkt)),
       EvRecvmsg 3 0 (recv_msg 4 Scenario.stale_pkt) RecvErr :: log)
    /\ (Z.land 0 MSG_ERRQUEUE = 0 ->
        exists errno,
          log = [EvSyslog LOG_INFO "recvmsg: %s" (ArgStrerror errno)])
    /\ (Z.land 0 MSG_ERRQUEUE <> 0 -> log = []).
Proof.
  apply (recv_w_ts_transport_failure 4 Scenario.env_down 3 0
           Scenario.stale_pkt []).
  reflexivity.
Defined.

(** X2. A datagram of [DATALEN] bytes or more is cut to its first
    [DATALEN] bytes: that is the payload of the packet, on either
    receive path. *)
Theorem recv_w_ts_truncates_to_datalen :
  forall (DATALEN : nat) (env : Env) (sock flags : Z) (pkt : pkt_t)
         (h : history) (d : list byte) (from : addr_t) (anc : list byte),
    env_recvmsg env h sock flags = RecvOk d from anc ->
    (DATALEN <= List.length d)%nat ->
    exists (rc : Z) (pkt' : pkt_t),
      result (recv_w_ts DATALEN env sock flags pkt h) = Returned (rc, pkt')
      /\ payload DATALEN pkt' = firstn DATALEN d
      /\ pkt_addr pkt' = from.
Proof.
  intros DATALEN env sock flags pkt h d from anc Hrecv Hlong.
  destruct (env_tstamp_extract env
              (h ++ [EvRecvmsg sock flags (recv_msg DATALEN pkt)
                       (RecvOk d from anc)])
              (filled_msg DATALEN d from anc) (pkt_ts pkt))
    as [rc t] eqn:Hext.
  rewrite (recv_w_ts_delivered DATALEN env sock flags pkt h
             d from anc rc t Hrecv Hext).
  do 2 eexists. split; [reflexivity|]. split; [|reflexivity].
  rewrite payload_delivered. unfold padded.
  replace (DATALEN - List.length d)%nat with 0%nat by lia.
  apply app_nil_r.
Qed.

(** Four bytes received into a two-byte payload. *)
Lemma recv_w_ts_truncates_to_datalen_run :
  exists (rc : Z) (pkt' : pkt_t),
    result (recv_w_ts 2 Scenario.env_ok 3 0 Scenario.blank_pkt [])
    = Returned (rc, pkt')
    /\ payload 2 pkt' = firstn 2 Scenario.probe
    /\ pkt_addr pkt' = Scenario.peer.
Proof.
  apply (recv_w_ts_truncates_to_datalen 2 Scenario.env_ok 3 0
           Scenario.blank_pkt [] Scenario.probe Scenario.peer []).
  - reflexivity.
  - simpl. lia.
Defined.

(** X3. In kernel mode, when [sendto] fails, [send_w_ts] logs
    "sendto: %s" at [LOG_INFO] and returns -1 without asking for the
    TX timestamp; the caller's timestamp is left all zero. *)
Theorem send_w_ts_kernel_failed_send :
  forall (DATALEN : nat) (env : Env) (cfg : config) (sock : Z)
         (addr : addr_t) (data : list byte) (ts : ts_t) (h : history),
    cfg_ts cfg <> "u"%char ->
    existsb is_sendto_failure
      (events (send_w_ts DATALEN env cfg sock addr data ts h)) = true ->
    exists rc errno : Z,
      send_w_ts DATALEN env cfg sock addr data ts h
      = (Returned (-1, ts_zero),
         [EvSendto sock (firstn DATALEN data) 0 addr rc;
          EvSyslog LOG_INFO "sendto: %s" (ArgStrerror errno)]).
Proof.
  intros DATALEN env cfg sock addr data ts h Hk.
  rewrite (send_w_ts_kernel DATALEN env cfg sock addr data ts h Hk).
  cbv zeta. destruct (_ <? 0) eqn:Hrc.
  - intros _. do 2 eexists. reflexivity.
  - unfold events. cbn [snd existsb orb is_sendto_failure]. rewrite Hrc.
    destruct (fst _ <? 0); discriminate.
Qed.

(** A kernel-mode send while the network is down. *)
Lemma send_w_ts_kernel_failed_send_run :
  exists rc errno : Z,
    send_w_ts 4 Scenario.env_down Scenario.kernel 3 Scenario.peer
      Scenario.probe (mkTs 7 7) []
    = (Returned (-1, ts_zero),
       [EvSendto 3 (firstn 4 Scenario.probe) 0 Scenario.peer rc;
        EvSyslog LOG_INFO "sendto: %s" (ArgStrerror errno)]).
Proof.
  apply (send_w_ts_kernel_failed_send 4 Scenario.env_down Scenario.kernel 3
           Scenario.peer Scenario.probe (mkTs 7 7) []).
  - discriminate.
  - reflexivity.
Defined.

(** X4. When the binder returns, the calls it made, messages aside,
    are these eight in this order: both sockets are created in the
    IPv6 domain and bound to the wildcard address at the given port,
    [SO_REUSEADDR] is set on the TCP socket only, and the TCP socket
    listens with a backlog of 10. *)
Theorem bind_or_die_success_calls :
  forall (env : Env) (my : addr_t) (port : Z) (h : history)
         (s_udp s_tcp : Z),
    result (bind_or_die env my port h) = Returned (s_udp, s_tcp) ->
    exists r1 b1 r2 r3 b2 l : Z,
      filter (fun e => negb (is_syslog e)) (events (bind_or_die env my port h))
      = [EvSocket PF_INET6 SOCK_DGRAM IPPROTO_UDP s_udp;
         EvSetsockopt s_udp IPPROTO_IPV6 IPV6_V6ONLY 0 r1;
         EvBind s_udp (bound_addr my port) b1;
         EvSocket PF_INET6 SOCK_STREAM IPPROTO_TCP s_tcp;
         EvSetsockopt s_tcp IPPROTO_IPV6 IPV6_V6ONLY 0 r2;
         EvSetsockopt s_tcp SOL_SOCKET SO_REUSEADDR 1 r3;
         EvBind s_tcp (bound_addr my port) b2;
         EvListen s_tcp 10 l]
      /\ 0 <= s_udp /\ 0 <= b1 /\ 0 <= s_tcp /\ 0 <= b2 /\ l <> -1.
Proof.
  intros env my port h s_udp s_tcp.
  change (wp (bind_or_die env my port) h
            (fun o evs =>
               o = Returned (s_udp, s_tcp) ->
               exists r1 b1 r2 r3 b2 l : Z,
                 filter (fun e => negb (is_syslog e)) evs
                 = [EvSocket PF_INET6 SOCK_DGRAM IPPROTO_UDP s_udp;
                    EvSetsockopt s_udp IPPROTO_IPV6 IPV6_V6ONLY 0 r1;
                    EvBind s_udp (bound_addr my port) b1;
                    EvSocket PF_INET6 SOCK_STREAM IPPROTO_TCP s_tcp;
                    EvSetsockopt s_tcp IPPROTO_IPV6 IPV6_V6ONLY 0 r2;
                    EvSetsockopt s_tcp SOL_SOCKET SO_REUSEADDR 1 r3;
                    EvBind s_tcp (bound_addr my port) b2;
                    EvListen s_tcp 10 l]
                 /\ 0 <= s_udp /\ 0 <= b1 /\ 0 <= s_tcp /\ 0 <= b2
                 /\ l <> -1)).
  unfold bound_addr. wp_run; try discriminate.
  all: intros Hret; injection Hret as -> ->.
  all: repeat match goal with
         | Hb : (_ <? 0) = false |- _ => apply Z.ltb_ge in Hb
         | Hb : (_ =? -1) = false |- _ => apply Z.eqb_neq in Hb
         end.
  all: do 6 eexists; split; [reflexivity | repeat split; assumption].
Qed.

(** A binder run in which everything succeeds. *)
Lemma bind_or_die_success_calls_run :
  exists r1 b1 r2 r3 b2 l : Z,
    filter (fun e => negb (is_syslog e))
      (events (bind_or_die Scenario.env_ok Scenario.peer 60666 []))
    = [EvSocket PF_INET6 SOCK_DGRAM IPPROTO_UDP 4;
       EvSetsockopt 4 IPPROTO_IPV6 IPV6_V6ONLY 0 r1;
       EvBind 4 (bound_addr Scenario.peer 60666) b1;
       EvSocket PF_INET6 SOCK_STREAM IPPROTO_TCP 7;
       EvSetsockopt 7 IPPROTO_IPV6 IPV6_V6ONLY 0 r2;
       EvSetsockopt 7 SOL_SOCKET SO_REUSEADDR 1 r3;
       EvBind 7 (bound_addr Scenario.peer 60666) b2;
       EvListen 7 10 l]
    /\ 0 <= 4 /\ 0 <= b1 /\ 0 <= 7 /\ 0 <= b2 /\ l <> -1.
Proof.
  apply (bind_or_die_success_calls Scenario.env_ok Scenario.peer 60666 []
           4 7).
  reflexivity.
Defined.



Lemma skipn_memset (data : list byte) (c : byte) (n : nat) :
  skipn n (memset data c n) = skipn n data.
Proof.
  unfold memset. rewrite skipn_app, repeat_length, Nat.sub_diag.
  rewrite skipn_all2 by (rewrite repeat_length; lia). reflexivity.
Qed.

Lemma length_memset (data : list byte) (c : byte) (n : nat) :
  (n <= List.length data)%nat ->
  List.length (memset data c n) = List.length data.
Proof.
  intros Hn. unfold memset.
  rewrite length_app, repeat_length, length_skipn. lia.
Qed.

(** X6. [recv_w_ts] writes to the first [DATALEN] bytes of the data
    buffer only: when the buffer has at least [DATALEN] bytes, its
    length and every byte past [DATALEN] are the same after the call,
    whatever [recvmsg] answered. *)
Theorem recv_w_ts_writes_within_datalen :
  forall (DATALEN : nat) (env : Env) (sock flags : Z) (pkt : pkt_t)
         (h : history),
    (DATALEN <= List.length (pkt_data pkt))%nat ->
    exists (rc : Z) (pkt' : pkt_t),
      result (recv_w_ts DATALEN env sock flags pkt h) = Returned (rc, pkt')
      /\ List.length (pkt_data pkt') = List.length (pkt_data pkt)
      /\ skipn DATALEN (pkt_data pkt') = skipn DATALEN (pkt_data pkt).
Proof.
  intros DATALEN env sock flags pkt h Hlen.
  recv_cases DATALEN env sock flags pkt h.
  - do 2 eexists. split; [reflexivity|]. cbn [pkt_data].
    split; [apply length_memset; exact Hlen | apply skipn_memset].
  - do 2 eexists. split; [reflexivity|]. cbn [pkt_data].
    unfold overwrite, padded. rewrite length_cleared, skipn_memset.
    split.
    + rewrite length_app, length_cleared, length_skipn. lia.
    + rewrite skipn_app, length_cleared, Nat.sub_diag.
      rewrite skipn_all2 by (rewrite length_cleared; lia). reflexivity.
Qed.

Lemma recv_w_ts_writes_within_datalen_run :
  exists (rc : Z) (pkt' : pkt_t),
    result (recv_w_ts 2 Scenario.env_ok 3 0 Scenario.blank_pkt [])
    = Returned (rc, pkt')
    /\ List.length (pkt_data pkt') = List.length (pkt_data Scenario.blank_pkt)
    /\ skipn 2 (pkt_data pkt') = skipn 2 (pkt_data Scenario.blank_pkt).
Proof.
  apply (recv_w_ts_writes_within_datalen 2 Scenario.env_ok 3 0
           Scenario.blank_pkt []).
  simpl. lia.
Defined.

(** X7. Neither function retries: a run of [recv_w_ts] has exactly one
    [recvmsg] and at most one [tstamp_extract]; a run of [send_w_ts]
    has exactly one [sendto], and takes its timestamp from at most one
    place, the clock or the kernel, never both. *)
Theorem transceiver_single_shot :
  forall (DATALEN : nat) (env : Env) (cfg : config) (sock flags : Z)
         (addr : addr_t) (data : list byte) (ts : ts_t) (pkt : pkt_t)
         (h : history),
    (count is_recvmsg (events (recv_w_ts DATALEN env sock flags pkt h)) = 1
     /\ count is_extract (events (recv_w_ts DATALEN env sock flags pkt h))
        <= 1)%nat
    /\ (count is_sendto
          (events (send_w_ts DATALEN env cfg sock addr data ts h)) = 1
        /\ count is_clock_read
             (events (send_w_ts DATALEN env cfg sock addr data ts h))
           + count is_fetch_tx
               (events (send_w_ts DATALEN env cfg sock addr data ts h))
           <= 1)%nat.
Proof.
  intros DATALEN env cfg sock flags addr data ts pkt h. split.
  - recv_cases DATALEN env sock flags pkt h; unfold count;
      destruct (_ =? 0); try destruct (rc <? 0);
      cbn [filter is_recvmsg is_extract List.length]; lia.
  - destruct (Ascii.eqb_spec (cfg_ts cfg) "u"%char) as [Hu | Hk].
    + rewrite (send_w_ts_userland DATALEN env cfg sock addr data ts h Hu).
      cbv zeta. unfold events, count. cbn [snd].
      destruct (_ <? 0);
        cbn [filter is_sendto is_clock_read is_fetch_tx List.length]; lia.
    + rewrite (send_w_ts_kernel DATALEN env cfg sock addr data ts h Hk).
      cbv zeta. unfold events, count.
      destruct (_ <? 0); cbn [snd];
        [cbn [filter is_sendto is_clock_read is_fetch_tx List.length]; lia|].
      destruct (fst _ <? 0);
        cbn [filter is_sendto is_clock_read is_fetch_tx List.length]; lia.
Qed.

(** X8. A failed [setsockopt] of [SO_REUSEADDR] on the TCP socket is
    not fatal either: the message about it is logged and the next call
    is the [bind] of that socket. *)
Theorem bind_or_die_reuseaddr_failure_is_not_fatal :
  forall (env : Env) (my : addr_t) (port : Z) (h : history)
         (pre : list event) (fd rc : Z) (post : list event),
    events (bind_or_die env my port h)
    = pre ++ EvSetsockopt fd SOL_SOCKET SO_REUSEADDR 1 rc :: post ->
    rc < 0 ->
    exists (errno rcb : Z) (rest : list event),
      post = EvSyslog LOG_ERR "setsockopt: SO_REUSEADDR: %s"
               (ArgStrerror errno)
             :: EvBind fd (bound_addr my port) rcb :: rest.
Proof.
  intros env my port h.
  change (wp (bind_or_die env my port) h
            (fun _ evs =>
               forall (pre : list event) (fd rc : Z) (post : list event),
                 evs = pre ++ EvSetsockopt fd SOL_SOCKET SO_REUSEADDR 1 rc
                              :: post ->
                 rc < 0 ->
                 exists (errno rcb : Z) (rest : list event),
                   post = EvSyslog LOG_ERR "setsockopt: SO_REUSEADDR: %s"
                            (ArgStrerror errno)
                          :: EvBind fd (bound_addr my port) rcb :: rest)).
  unfold bound_addr. wp_run.
  all: intros pre sk res post Hev Hneg.
  all: split_at Hev ltac:(fun Hx =>
         first
           [ discriminate Hx
           | exfalso; cbv in Hx; discriminate Hx
           | inversion Hx; subst;
             first
               [ exfalso;
                 match goal with
                 | Hb : (?x <? 0) = false, Hn : ?x < 0 |- _ =>
                     apply Z.ltb_ge in Hb; lia
                 end
               | do 3 eexists; reflexivity ] ]).
Qed.

Lemma bind_or_die_reuseaddr_failure_is_not_fatal_run :
  exists (errno rcb : Z) (rest : list event),
    skipn 9 (events (bind_or_die Scenario.env_no_sockopt Scenario.peer
                       60666 []))
    = EvSyslog LOG_ERR "setsockopt: SO_REUSEADDR: %s" (ArgStrerror errno)
      :: EvBind 8 (bound_addr Scenario.peer 60666) rcb :: rest.
Proof.
  apply (bind_or_die_reuseaddr_failure_is_not_fatal Scenario.env_no_sockopt
           Scenario.peer 60666 []
           (firstn 8 (events (bind_or_die Scenario.env_no_sockopt
                                Scenario.peer 60666 [])))
           8 (-1)).
  - reflexivity.
  - lia.
Defined.

(** X9. The binder stops at the first failed [socket], [bind] or
    [listen]: no step failed before it, and after it come only the
    message that names the failed call, with [strerror(errno)], and
    the exit with [EXIT_FAILURE]. *)
Theorem bind_or_die_stops_at_first_failure :
  forall (env : Env) (my : addr_t) (port : Z) (h : history)
         (pre : list event) (e : event) (post : list event),
    events (bind_or_die env my port h) = pre ++ e :: post ->
    is_acquisition_failure e = true ->
    existsb is_acquisition_failure pre = false
    /\ (exists errno : Z,
          post = [EvSyslog LOG_ERR (failure_message e) (ArgStrerror errno);
                  EvExit EXIT_FAILURE])
    /\ result (bind_or_die env my port h) = Exited EXIT_FAILURE.
Proof.
  intros env my port h.
  change (wp (bind_or_die env my port) h
            (fun o evs =>
               forall (pre : list event) (e : event) (post : list event),
                 evs = pre ++ e :: post ->
                 is_acquisition_failure e = true ->
                 existsb is_acquisition_failure pre = false
                 /\ (exists errno : Z,
                       post = [EvSyslog LOG_ERR (failure_message e)
                                 (ArgStrerror errno);
                               EvExit EXIT_FAILURE])
                 /\ o = Exited EXIT_FAILURE)).
  wp_run.
  all: intros pre_ e_ post_ Hev Hfail.
  all: split_at Hev ltac:(fun Hx =>
         subst e_; cbn [is_acquisition_failure] in Hfail;
         first
           [ discriminate Hfail
           | congruence
           | split;
             [ cbn [existsb is_acquisition_failure orb];
               repeat match goal with
                 | Hb : _ = false |- _ => rewrite Hb; clear Hb
                 end;
               reflexivity
             | split; [eexists; reflexivity | reflexivity] ] ]).
Qed.

Lemma bind_or_die_stops_at_first_failure_run :
  existsb is_acquisition_failure
    (firstn 3 (events (bind_or_die Scenario.env_port_taken Scenario.peer
                         60666 []))) = false
  /\ (exists errno : Z,
        skipn 4 (events (bind_or_die Scenario.env_port_taken Scenario.peer
                           60666 []))
        = [EvSyslog LOG_ERR
             (failure_message (EvBind 4 (bound_addr Scenario.peer 60666) (-1)))
             (ArgStrerror errno);
           EvExit EXIT_FAILURE])
  /\ result (bind_or_die Scenario.env_port_taken Scenario.peer 60666 [])
     = Exited EXIT_FAILURE.
Proof.
  apply (bind_or_die_stops_at_first_failure Scenario.env_port_taken
           Scenario.peer 60666 []
           (firstn 3 (events (bind_or_die Scenario.env_port_taken
                                Scenario.peer 60666 [])))
           (EvBind 4 (bound_addr Scenario.peer 60666) (-1))).
  - reflexivity.
  - reflexivity.
Defined.

(** ** The start-up script of the manager *)

Module SlaNgManagerProofs.

Import SlaNgManager.

Section PyWeakestPre.
Context {A B : Type}.

Lemma pwp_ret (a : A) h (Q : pyoutcome A -> list pyevent -> Prop) :
  Q (Returned a) [] -> pwp (ret a) h Q.
Proof. exact (fun H => H). Qed.

Lemma pwp_raise (e : exn) h (Q : pyoutcome A -> list pyevent -> Prop) :
  Q (Raised e) [] -> pwp (raise e) h Q.
Proof. exact (fun H => H). Qed.

Lemma pwp_bind (m : P A) (k : A -> P B) h Q :
  pwp m h (fun o e1 =>
             match o with
             | Returned a =>
                 pwp (k a) (h ++ e1) (fun o2 e2 => Q o2 (e1 ++ e2))
             | Raised e => Q (Raised e) e1
             end) ->
  pwp (bind m k) h Q.
Proof.
  unfold pwp, bind, py_result, py_calls.
  destruct (m h) as [[a|e] e1]; cbn [fst snd]; auto.
  destruct (k a (h ++ e1)); auto.
Qed.

Lemma pwp_try (body : P A) (handler : exn -> option (P A)) h Q :
  pwp body h (fun o e1 =>
                match o with
                | Returned a => Q (Returned a) e1
                | Raised e =>
                    match handler e with
                    | Some k =>
                        pwp k (h ++ e1) (fun o2 e2 => Q o2 (e1 ++ e2))
                    | None => Q (Raised e) e1
                    end
                end) ->
  pwp (try_except body handler) h Q.
Proof.
  unfold pwp, try_except, py_result, py_calls.
  destruct (body h) as [[a|e] e1]; cbn [fst snd]; auto.
  destruct (handler e) as [k|]; auto. destruct (k (h ++ e1)); auto.
Qed.

End PyWeakestPre.

Section PyWeakestPreCalls.
Variable env : PyEnv.

Lemma pwp_call_int c h Q :
  (forall a, Q (of_answer a) [PyInt c a]) -> pwp (call_int env c) h Q.
Proof. intros H. apply H. Qed.

Lemma pwp_call_unit c h Q :
  (forall a, Q (of_answer a) [PyUnit c a]) -> pwp (call_unit env c) h Q.
Proof. intros H. apply H. Qed.

Lemma pwp_call_obj c h Q :
  (forall a, Q (of_answer a) [PyObj c a]) -> pwp (call_obj env c) h Q.
Proof. intros H. apply H. Qed.

Lemma pwp_parse_args p h Q :
  (forall a, Q (of_answer a) [PyParseArgs p a]) -> pwp (parse_args env p) h Q.
Proof. intros H. apply H. Qed.

End PyWeakestPreCalls.

Ltac pwp_step :=
  lazymatch goal with
  | |- pwp (bind _ _) _ _ => apply pwp_bind
  | |- pwp (ret _) _ _ => apply pwp_ret
  | |- pwp (raise _) _ _ => apply pwp_raise
  | |- pwp (sys_exit _) _ _ => apply pwp_raise
  | |- pwp (try_except _ _) _ _ => apply pwp_try
  | |- pwp (if ?b then _ else _) _ _ => destruct b eqn:?
  | |- pwp (call_int _ _) _ _ => apply pwp_call_int; intros [?|?]
  | |- pwp (call_unit _ _) _ _ => apply pwp_call_unit; intros [[]|?]
  | |- pwp (call_obj _ _) _ _ => apply pwp_call_obj; intros [?|?]
  | |- pwp (parse_args _ _) _ _ => apply pwp_parse_args; intros [[? ? ?]|?]
  | |- pwp (daemonize _ _ _ _) _ _ => unfold daemonize
  | |- match (match ?e with OSError _ _ => _ | _ => _ end) with _ => _ end =>
      destruct e
  end; cbv beta iota; cbn [app of_answer cfg_path mode verbose].

Ltac pwp_run := repeat pwp_step.


Ltac gtb_false :=
  repeat match goal with
    | Hb : (?x >? 0) = false |- _ =>
        rewrite Z.gtb_ltb in Hb; apply Z.ltb_ge in Hb
    | Hb : (?x >? 0) = true |- _ =>
        rewrite Z.gtb_ltb in Hb; apply Z.ltb_lt in Hb
    end.

(** All but the last two elements of a list given in full. *)
Ltac but_last2 l :=
  match l with
  | [_; _] => constr:(@nil pyevent)
  | ?x :: ?r => let p := but_last2 r in constr:(x :: p)
  end.

(** X10. In [daemonize], a process to which a fork returns a pid above
    zero (the parent of the first fork, the session leader at the
    second) makes no further call and exits with status 0. *)
Theorem daemonize_parent_exits_at_once :
  forall (env : PyEnv) (si so se : string) (h pre : list pyevent) (pid : Z)
         (post : list pyevent),
    py_calls (daemonize env si so se h) = pre ++ PyInt Fork (Val pid) :: post ->
    0 < pid ->
    post = []
    /\ py_result (daemonize env si so se h) = Raised (SystemExit 0).
Proof.
  intros env si so se h.
  change (pwp (daemonize env si so se) h
            (fun o evs =>
               forall pre pid post,
                 evs = pre ++ PyInt Fork (Val pid) :: post ->
                 0 < pid ->
                 post = [] /\ o = Raised (SystemExit 0))).
  unfold daemonize. pwp_run.
  all: intros pre_ pid_ post_ Hev Hpos.
  all: split_at Hev ltac:(fun Hx =>
         first [ discriminate Hx
               | inversion Hx; subst;
                 first [ split; reflexivity | exfalso; gtb_false; lia ] ]).
Qed.

(** The child of the first fork, as the parent of the second. *)
Lemma daemonize_parent_exits_at_once_run :
  skipn 5 (py_calls (daemonize env_session_leader dev_null dev_null dev_null []))
  = []
  /\ py_result (daemonize env_session_leader dev_null dev_null dev_null [])
     = Raised (SystemExit 0).
Proof.
  apply (daemonize_parent_exits_at_once env_session_leader
           dev_null dev_null dev_null []
           (firstn 4 (py_calls (daemonize env_session_leader
                                  dev_null dev_null dev_null [])))
           4712).
  - reflexivity.
  - lia.
Defined.


(** X11. When a fork of [daemonize] raises [OSError], the only call
    that follows writes "fork #1 failed: (errno) strerror" to stderr
    for the first fork and "fork #2 failed: ..." for the second; then
    the process exits with status 1 (or with the exception of the
    write, if that raised). *)
Theorem daemonize_fork_failure_reported :
  forall (env : PyEnv) (si so se : string) (h pre : list pyevent)
         (errno : Z) (msg : string) (post : list pyevent),
    py_calls (daemonize env si so se h)
    = pre ++ PyInt Fork (Exc (OSError errno msg)) :: post ->
    exists a : answer unit,
      post = [PyUnit (StderrWrite
                        (if existsb is_fork pre then fmt_fork2 else fmt_fork1)
                        errno msg) a]
      /\ py_result (daemonize env si so se h) = then_exit a 1.
Proof.
  intros env si so se h.
  change (pwp (daemonize env si so se) h
            (fun o evs =>
               forall pre errno msg post,
                 evs = pre ++ PyInt Fork (Exc (OSError errno msg)) :: post ->
                 exists a : answer unit,
                   post = [PyUnit (StderrWrite
                                     (if existsb is_fork pre
                                      then fmt_fork2 else fmt_fork1)
                                     errno msg) a]
                   /\ o = then_exit a 1)).
  unfold daemonize. pwp_run.
  all: intros pre_ errno_ msg_ post_ Hev.
  all: split_at Hev ltac:(fun Hx =>
         first [ discriminate Hx
               | inversion Hx; subst; eexists; split; reflexivity ]).
Qed.

(** The first fork fails for lack of resources. *)
Lemma daemonize_fork_failure_reported_run :
  exists a : answer unit,
    skipn 1 (py_calls (daemonize env_no_fork dev_null dev_null dev_null []))
    = [PyUnit (StderrWrite
                 (if existsb is_fork [] then fmt_fork2 else fmt_fork1)
                 11 "Resource temporarily unavailable") a]
    /\ py_result (daemonize env_no_fork dev_null dev_null dev_null [])
       = then_exit a 1.
Proof.
  apply (daemonize_fork_failure_reported env_no_fork
           dev_null dev_null dev_null [] []).
  reflexivity.
Defined.


(** X12. When [daemonize] returns, the process is the child of both
    forks and it made exactly these calls: fork, chdir to "/", umask 0,
    setsid, fork, then the three files opened with modes "r", "a+" and
    unbuffered "a+", each duplicated onto the descriptor of
    [sys.stdin], [sys.stdout] and [sys.stderr] in this order. *)
Theorem daemonize_returns_in_daemon :
  forall (env : PyEnv) (si so se : string) (h : list pyevent),
    py_result (daemonize env si so se h) = Returned tt ->
    exists (pid1 mask pid2 : Z) (fi fo fe : obj) (a1 b1 a2 b2 a3 b3 : Z),
      py_calls (daemonize env si so se h)
      = [PyInt Fork (Val pid1);
         PyUnit (Chdir "/") (Val tt);
         PyInt (Umask 0) (Val mask);
         PyUnit Setsid (Val tt);
         PyInt Fork (Val pid2);
         PyObj (Open si "r" None) (Val fi);
         PyObj (Open so "a+" None) (Val fo);
         PyObj (Open se "a+" (Some 0)) (Val fe);
         PyInt (Fileno (FileObj fi)) (Val a1);
         PyInt (Fileno SysStdin) (Val b1);
         PyUnit (Dup2 a1 b1) (Val tt);
         PyInt (Fileno (FileObj fo)) (Val a2);
         PyInt (Fileno SysStdout) (Val b2);
         PyUnit (Dup2 a2 b2) (Val tt);
         PyInt (Fileno (FileObj fe)) (Val a3);
         PyInt (Fileno SysStderr) (Val b3);
         PyUnit (Dup2 a3 b3) (Val tt)]
      /\ pid1 <= 0 /\ pid2 <= 0.
Proof.
  intros env si so se h.
  change (pwp (daemonize env si so se) h
            (fun o evs =>
               o = Returned tt ->
               exists (pid1 mask pid2 : Z) (fi fo fe : obj)
                      (a1 b1 a2 b2 a3 b3 : Z),
                 evs
                 = [PyInt Fork (Val pid1);
                    PyUnit (Chdir "/") (Val tt);
                    PyInt (Umask 0) (Val mask);
                    PyUnit Setsid (Val tt);
                    PyInt Fork (Val pid2);
                    PyObj (Open si "r" None) (Val fi);
                    PyObj (Open so "a+" None) (Val fo);
                    PyObj (Open se "a+" (Some 0)) (Val fe);
                    PyInt (Fileno (FileObj fi)) (Val a1);
                    PyInt (Fileno SysStdin) (Val b1);
                    PyUnit (Dup2 a1 b1) (Val tt);
                    PyInt (Fileno (FileObj fo)) (Val a2);
                    PyInt (Fileno SysStdout) (Val b2);
                    PyUnit (Dup2 a2 b2) (Val tt);
                    PyInt (Fileno (FileObj fe)) (Val a3);
                    PyInt (Fileno SysStderr) (Val b3);
                    PyUnit (Dup2 a3 b3) (Val tt)]
                 /\ pid1 <= 0 /\ pid2 <= 0)).
  unfold daemonize. pwp_run; try discriminate.
  intros _. gtb_false. do 12 eexists. split; [reflexivity|]. split; assumption.
Qed.

(** The daemon: every call returns. *)
Lemma daemonize_returns_in_daemon_run :
  exists (pid1 mask pid2 : Z) (fi fo fe : obj) (a1 b1 a2 b2 a3 b3 : Z),
    py_calls (daemonize env_daemon dev_null dev_null dev_null [])
    = [PyInt Fork (Val pid1);
       PyUnit (Chdir "/") (Val tt);
       PyInt (Umask 0) (Val mask);
       PyUnit Setsid (Val tt);
       PyInt Fork (Val pid2);
       PyObj (Open dev_null "r" None) (Val fi);
       PyObj (Open dev_null "a+" None) (Val fo);
       PyObj (Open dev_null "a+" (Some 0)) (Val fe);
       PyInt (Fileno (FileObj fi)) (Val a1);
       PyInt (Fileno SysStdin) (Val b1);
       PyUnit (Dup2 a1 b1) (Val tt);
       PyInt (Fileno (FileObj fo)) (Val a2);
       PyInt (Fileno SysStdout) (Val b2);
       PyUnit (Dup2 a2 b2) (Val tt);
       PyInt (Fileno (FileObj fe)) (Val a3);
       PyInt (Fileno SysStderr) (Val b3);
       PyUnit (Dup2 a3 b3) (Val tt)]
    /\ pid1 <= 0 /\ pid2 <= 0.
Proof.
  apply (daemonize_returns_in_daemon env_daemon dev_null dev_null dev_null []).
  reflexivity.
Defined.


(** X13. [os.setsid()] is called only by the child of the first fork,
    right after it changed to "/" and cleared the umask; when it
    returns the next call is the second fork, and when it raises the
    exception leaves [daemonize] with nothing else done. *)
Theorem daemonize_session_between_forks :
  forall (env : PyEnv) (si so se : string) (h pre : list pyevent)
         (a : answer unit) (post : list pyevent),
    py_calls (daemonize env si so se h) = pre ++ PyUnit Setsid a :: post ->
    (exists pid mask : Z,
       pre = [PyInt Fork (Val pid); PyUnit (Chdir "/") (Val tt);
              PyInt (Umask 0) (Val mask)]
       /\ pid <= 0)
    /\ match a with
       | Val _ => exists (a2 : answer Z) (rest : list pyevent),
                    post = PyInt Fork a2 :: rest
       | Exc e => post = []
                  /\ py_result (daemonize env si so se h) = Raised e
       end.
Proof.
  intros env si so se h.
  change (pwp (daemonize env si so se) h
            (fun o evs =>
               forall pre a post,
                 evs = pre ++ PyUnit Setsid a :: post ->
                 (exists pid mask : Z,
                    pre = [PyInt Fork (Val pid); PyUnit (Chdir "/") (Val tt);
                           PyInt (Umask 0) (Val mask)]
                    /\ pid <= 0)
                 /\ match a with
                    | Val _ => exists (a2 : answer Z) (rest : list pyevent),
                                 post = PyInt Fork a2 :: rest
                    | Exc e => post = [] /\ o = Raised e
                    end)).
  unfold daemonize. pwp_run.
  all: intros pre_ a_ post_ Hev.
  all: split_at Hev ltac:(fun Hx =>
         first [ discriminate Hx
               | inversion Hx; subst; gtb_false;
                 split;
                 [ do 2 eexists; split; [reflexivity | assumption]
                 | first [ do 2 eexists; reflexivity
                         | split; reflexivity ] ] ]).
Qed.

(** The [setsid] of the daemon. *)
Lemma daemonize_session_between_forks_run :
  (exists pid mask : Z,
     firstn 3 (py_calls (daemonize env_daemon dev_null dev_null dev_null []))
     = [PyInt Fork (Val pid); PyUnit (Chdir "/") (Val tt);
        PyInt (Umask 0) (Val mask)]
     /\ pid <= 0)
  /\ (exists (a2 : answer Z) (rest : list pyevent),
        skipn 4 (py_calls (daemonize env_daemon dev_null dev_null dev_null []))
        = PyInt Fork a2 :: rest).
Proof.
  apply (daemonize_session_between_forks env_daemon
           dev_null dev_null dev_null []
           (firstn 3 (py_calls (daemonize env_daemon
                                  dev_null dev_null dev_null [])))
           (Val tt)).
  reflexivity.
Defined.


(** X14. [daemonize] opens files and duplicates descriptors only in
    the process that is the child of both forks, with the new session
    created between them. *)
Theorem daemonize_redirects_only_in_daemon :
  forall (env : PyEnv) (si so se : string) (h pre : list pyevent)
         (e : pyevent) (post : list pyevent),
    py_calls (daemonize env si so se h) = pre ++ e :: post ->
    is_redirect e = true ->
    exists (pid1 pid2 : Z) (mid1 mid2 : list pyevent),
      pre = PyInt Fork (Val pid1) :: mid1 ++ PyInt Fork (Val pid2) :: mid2
      /\ pid1 <= 0 /\ pid2 <= 0
      /\ existsb is_new_session mid1 = true.
Proof.
  intros env si so se h.
  change (pwp (daemonize env si so se) h
            (fun _ evs =>
               forall pre e post,
                 evs = pre ++ e :: post ->
                 is_redirect e = true ->
                 exists (pid1 pid2 : Z) (mid1 mid2 : list pyevent),
                   pre = PyInt Fork (Val pid1) :: mid1
                         ++ PyInt Fork (Val pid2) :: mid2
                   /\ pid1 <= 0 /\ pid2 <= 0
                   /\ existsb is_new_session mid1 = true)).
  unfold daemonize. pwp_run.
  all: intros pre_ e_ post_ Hev Hred.
  all: split_at Hev ltac:(fun Hx =>
         subst e_; first
           [ discriminate Hred
           | gtb_false; eexists _, _, [_; _; _], _;
             split; [reflexivity|]; repeat split; assumption || reflexivity ]).
Qed.

(** The first [open] of the daemon. *)
Lemma daemonize_redirects_only_in_daemon_run :
  exists (pid1 pid2 : Z) (mid1 mid2 : list pyevent),
    firstn 5 (py_calls (daemonize env_daemon dev_null dev_null dev_null []))
    = PyInt Fork (Val pid1) :: mid1 ++ PyInt Fork (Val pid2) :: mid2
    /\ pid1 <= 0 /\ pid2 <= 0
    /\ existsb is_new_session mid1 = true.
Proof.
  apply (daemonize_redirects_only_in_daemon env_daemon
           dev_null dev_null dev_null []
           (firstn 5 (py_calls (daemonize env_daemon
                                  dev_null dev_null dev_null [])))
           (PyObj (Open dev_null "r" None) (Val 3))
           (skipn 6 (py_calls (daemonize env_daemon
                                 dev_null dev_null dev_null [])))).
  - reflexivity.
  - reflexivity.
Defined.



Lemma on_each_split_sound {A} (f : list A -> A -> list A -> option Prop)
    (l : list A) :
  forall acc : list A,
    on_each_split f acc l ->
    forall (pre : list A) (x : A) (post : list A),
      l = pre ++ x :: post ->
      match f (acc ++ pre) x post with Some Q => Q | None => True end.
Proof.
  induction l as [|y l IH]; intros acc H pre x post E.
  - destruct pre; discriminate.
  - destruct pre as [|z pre]; cbn [app] in E; injection E as Hy Hl;
      subst y l; cbn [on_each_split] in H.
    + rewrite app_nil_r. destruct (f acc x post); tauto.
    + assert (H' : on_each_split f (acc ++ [z]) (pre ++ x :: post))
        by (destruct (f acc z (pre ++ x :: post)); tauto).
      specialize (IH _ H' pre x post eq_refl).
      rewrite <- app_assoc in IH. exact IH.
Qed.

Lemma all_levels_In (lvl : Z) (l : list pyevent) (o : obj) (level : Z)
    (a : answer unit) :
  all_levels lvl l -> In (PyUnit (SetLevel o level) a) l -> level = lvl.
Proof.
  induction l as [|e l IH]; intros H Hin; [contradiction|].
  destruct Hin as [-> | Hin].
  - cbn [all_levels] in H. tauto.
  - apply IH; [|exact Hin].
    destruct e as [| [] | |]; cbn [all_levels] in H; tauto.
Qed.

Ltac split_run := cbv beta iota delta [on_each_split app].

(** X15. When the manager cannot be created ([ManagerError]), the
    script prints "Cannot start manager. Exiting." and exits with
    status 0: no signal handler is installed and the manager is
    neither run nor stopped. *)
Theorem main_manager_error_exits_zero :
  forall (env : PyEnv) (h pre : list pyevent) (path : string)
         (post : list pyevent),
    py_calls (main env h)
    = pre ++ PyObj (NewManager path) (Exc ManagerError) :: post ->
    exists a : answer unit,
      post = [PyUnit (Print "Cannot start manager. Exiting.") a]
      /\ py_result (main env h) = then_exit a 0.
Proof.
  intros env h pre path post Hev.
  assert (W : pwp (main env) h
                (fun o evs =>
                   on_each_split
                     (fun _ x post =>
                        match x with
                        | PyObj (NewManager _) (Exc ManagerError) =>
                            Some (exists a : answer unit,
                                    post = [PyUnit
                                              (Print "Cannot start manager. Exiting.")
                                              a]
                                    /\ o = then_exit a 0)
                        | _ => None
                        end) [] evs)).
  { unfold main. pwp_run; split_run;
      first [ exact I | split; [eexists; split; reflexivity | exact I] ]. }
  exact (on_each_split_sound _ _ [] W _ _ _ Hev).
Qed.

(** A foreground start with a manager that cannot be created. *)
Lemma main_manager_error_exits_zero_run :
  exists a : answer unit,
    skipn 14 (py_calls (main env_fg_no_manager []))
    = [PyUnit (Print "Cannot start manager. Exiting.") a]
    /\ py_result (main env_fg_no_manager []) = then_exit a 0.
Proof.
  apply (main_manager_error_exits_zero env_fg_no_manager []
           (firstn 13 (py_calls (main env_fg_no_manager [])))
           "/tmp/manager.conf").
  reflexivity.
Defined.








(** X18. Every [setLevel] of the script, on the root logger and on
    the handler, sets [DEBUG] when the parsed options are verbose and
    [INFO] otherwise. *)
Theorem main_log_levels_follow_verbose :
  forall (env : PyEnv) (h pre : list pyevent) (p : obj) (opts : options)
         (post : list pyevent) (o : obj) (level : Z) (a : answer unit),
    py_calls (main env h) = pre ++ PyParseArgs p (Val opts) :: post ->
    In (PyUnit (SetLevel o level) a) post ->
    level = if verbose opts then DEBUG else INFO.
Proof.
  intros env h pre p opts post o level a Hev Hin.
  assert (W : pwp (main env) h
                (fun _ evs =>
                   on_each_split
                     (fun _ x post =>
                        match x with
                        | PyParseArgs _ (Val opts) =>
                            Some (all_levels
                                    (if verbose opts then DEBUG else INFO)
                                    post)
                        | _ => None
                        end) [] evs)).
  { unfold main. pwp_run; split_run; try exact I.
    all: split; [|exact I].
    all: cbv beta iota delta [all_levels verbose]; repeat split. }
  exact (all_levels_In _ _ _ _ _ (on_each_split_sound _ _ [] W _ _ _ Hev) Hin).
Qed.

(** The level of the root logger in a verbose start. *)
Lemma main_log_levels_follow_verbose_run :
  10 = if verbose foreground_verbose then DEBUG else INFO.
Proof.
  apply (main_log_levels_follow_verbose env_fg []
           (firstn 4 (py_calls (main env_fg []))) 100 foreground_verbose
           (skipn 5 (py_calls (main env_fg []))) 105 10 (Val tt)).
  - reflexivity.
  - vm_compute. right. left. reflexivity.
Defined.


(** X19. The script never runs off its end: every run ends with an
    exception, and when that is a [SystemExit] of the script's own (no
    call raised one) its status is 0, or 1 after a failed fork. *)
Theorem main_always_exits :
  forall (env : PyEnv) (h : list pyevent),
    exists e : exn,
      py_result (main env h) = Raised e
      /\ forall s : Z,
           e = SystemExit s ->
           existsb raised_system_exit (py_calls (main env h)) = false ->
           s = 0
           \/ (s = 1 /\ existsb is_failed_fork (py_calls (main env h)) = true).
Proof.
  intros env h.
  change (pwp (main env) h
            (fun o evs =>
               exists e : exn,
                 o = Raised e
                 /\ forall s : Z,
                      e = SystemExit s ->
                      existsb raised_system_exit evs = false ->
                      s = 0 \/ (s = 1 /\ existsb is_failed_fork evs = true))).
  unfold main. pwp_run.
  all: eexists; split; [reflexivity|]; intros s_ Hs Hno.
  all: first
         [ discriminate Hs
         | injection Hs as <-;
           first [ left; reflexivity | right; split; reflexivity ]
         | exfalso; subst;
           cbv beta iota delta [existsb raised_system_exit raised_by orb]
             in Hno;
           discriminate Hno ].
Qed.

(** X20. The manager is run only right after its handler was
    installed for [SIGINT] and then for [SIGTERM]; when [run] returns
    the next call stops the manager, and when [run] raises the
    exception ends the script and the manager is not stopped. *)
Theorem main_run_then_stop :
  forall (env : PyEnv) (h pre : list pyevent) (m : obj) (a : answer unit)
         (post : list pyevent),
    py_calls (main env h) = pre ++ PyUnit (Run m) a :: post ->
    (exists pre' : list pyevent,
       pre = pre' ++ [PyUnit (Signal SIGINT m) (Val tt);
                      PyUnit (Signal SIGTERM m) (Val tt)])
    /\ match a with
       | Val _ => exists (a2 : answer unit) (rest : list pyevent),
                    post = PyUnit (Stop m) a2 :: rest
       | Exc e => post = [] /\ py_result (main env h) = Raised e
       end.
Proof.
  intros env h pre m a post Hev.
  assert (W : pwp (main env) h
                (fun o evs =>
                   on_each_split
                     (fun pre x post =>
                        match x with
                        | PyUnit (Run m) a =>
                            Some ((exists pre' : list pyevent,
                                     pre = pre'
                                           ++ [PyUnit (Signal SIGINT m) (Val tt);
                                               PyUnit (Signal SIGTERM m) (Val tt)])
                                  /\ match a with
                                     | Val _ =>
                                         exists (a2 : answer unit)
                                                (rest : list pyevent),
                                           post = PyUnit (Stop m) a2 :: rest
                                     | Exc e => post = [] /\ o = Raised e
                                     end)
                        | _ => None
                        end) [] evs)).
  { unfold main. pwp_run; split_run; try exact I.
    all: split; [|exact I]; split;
         [ match goal with
           | |- exists pre' : list pyevent, ?l = _ =>
               let q := but_last2 l in exists q; reflexivity
           end
         | first [ do 2 eexists; reflexivity | split; reflexivity ] ]. }
  exact (on_each_split_sound _ _ [] W _ _ _ Hev).
Qed.

(** A foreground start whose [run] is interrupted. *)
Lemma main_run_then_stop_run :
  (exists pre' : list pyevent,
     firstn 16 (py_calls (main env_fg_interrupted []))
     = pre' ++ [PyUnit (Signal SIGINT 7) (Val tt);
                PyUnit (Signal SIGTERM 7) (Val tt)])
  /\ (skipn 17 (py_calls (main env_fg_interrupted [])) = []
      /\ py_result (main env_fg_interrupted [])
         = Raised (OtherError "KeyboardInterrupt")).
Proof.
  apply (main_run_then_stop env_fg_interrupted []
           (firstn 16 (py_calls (main env_fg_interrupted []))) 7
           (Exc (OtherError "KeyboardInterrupt"))).
  reflexivity.
Defined.


End SlaNgManagerProofs.
